(** * DOCX to Markdown extraction: [analyze_docx.py] and [extract_docx_simple.py]

    A shallow embedding of the two extraction scripts and the properties of
    the Markdown they produce.

    Python [str] values are sequences of Unicode code points; they are
    modelled as lists of code points ([N]).  The document object returned by
    python-docx is modelled by the attributes the scripts read:
    [paragraph.text], [paragraph.style.name], [table.rows], [row.cells] and
    [cell.paragraphs].

    The model starts after [install_docx()] has returned the imported
    [Document] class.  The file system is a finite map from paths to files;
    a file is a document python-docx can open, a text file or a directory
    (which python-docx opens too when it holds an expanded package).
    Of the printed output, the line of the missing-file error is kept as
    text; progress output and the report of the except branch are kept as
    markers. *)

From Stdlib Require Import NArith Ascii String DecimalString.
From stdpp Require Import base list gmap.

Local Open Scope N_scope.
Local Open Scope nat_scope.

(** ** Strings *)

Definition char := N.
Definition str := list char.

(** A string literal of the source, as code points. *)
Definition lit (s : string) : str := map N_of_ascii (list_ascii_of_string s).

Definition ch_pipe : char := 124%N.
Definition ch_backslash : char := 92%N.
Definition ch_space : char := 32%N.
Definition ch_newline : char := 10%N.
Definition ch_return : char := 13%N.

(** [str.isspace] on one code point: the characters [str.strip()] removes. *)
Definition is_space (c : char) : bool :=
  ((9 <=? c) && (c <=? 13))%N
  || ((28 <=? c) && (c <=? 32))%N
  || (c =? 133)%N || (c =? 160)%N || (c =? 5760)%N
  || ((8192 <=? c) && (c <=? 8202))%N
  || (c =? 8232)%N || (c =? 8233)%N || (c =? 8239)%N
  || (c =? 8287)%N || (c =? 12288)%N.

Fixpoint lstrip (s : str) : str :=
  match s with
  | [] => []
  | c :: s' => if is_space c then lstrip s' else s
  end.

Definition rstrip (s : str) : str := rev (lstrip (rev s)).

(** [s.strip()] *)
Definition strip (s : str) : str := rstrip (lstrip s).

Definition str_eqb (a b : str) : bool := bool_decide (a = b).

(** [s.startswith(p)] *)
Fixpoint startswith (p s : str) : bool :=
  match p, s with
  | [], _ => true
  | _ :: _, [] => false
  | a :: p', b :: s' => (a =? b)%N && startswith p' s'
  end.

(** [sub in s] *)
Fixpoint contains (sub s : str) : bool :=
  startswith sub s ||
  match s with
  | [] => false
  | _ :: s' => contains sub s'
  end.

(** [s.replace(old, new)] for a non-empty [old]: occurrences are replaced
    from left to right and do not overlap.  [skip] counts the characters of
    a matched occurrence that are still to be passed over. *)
Fixpoint replace_from (old new : str) (skip : nat) (s : str) : str :=
  match s with
  | [] => []
  | c :: s' =>
      match skip with
      | S k => replace_from old new k s'
      | O =>
          if startswith old s
          then new ++ replace_from old new (length old - 1) s'
          else c :: replace_from old new 0 s'
      end
  end.

(** [s.replace(old, new)]; with an empty [old], [new] is put before every
    character and at the end. *)
Definition replace (old new s : str) : str :=
  match old with
  | [] => new ++ flat_map (fun c => c :: new) s
  | _ :: _ => replace_from old new 0 s
  end.

(** [sep.join(parts)] *)
Fixpoint join (sep : str) (parts : list str) : str :=
  match parts with
  | [] => []
  | [p] => p
  | p :: ps => p ++ sep ++ join sep ps
  end.

(** [str(n)] for a non-negative integer. *)
Definition str_of_nat (n : nat) : str :=
  lit (NilEmpty.string_of_uint (Nat.to_uint n)).

(** Truth value of a string or of a list: non-empty. *)
Definition truthy {A} (l : list A) : bool :=
  match l with
  | [] => false
  | _ :: _ => true
  end.

(** ** The document, as python-docx exposes it *)

Record paragraph := {
  text : str;             (* paragraph.text *)
  style : option str      (* paragraph.style, as its name; None when absent *)
}.

Record cell := { cell_paragraphs : list paragraph }.   (* cell.paragraphs *)
Record row := { cells : list cell }.                   (* row.cells *)
Record table := { rows : list row }.                   (* table.rows *)

Record document := {
  paragraphs : list paragraph;   (* doc.paragraphs *)
  tables : list table            (* doc.tables *)
}.

(** ** Paragraphs (identical in both scripts) *)

(** [paragraph.style.name if paragraph.style else 'Normal'] *)
Definition style_name (p : paragraph) : str :=
  match style p with
  | Some name => name
  | None => lit "Normal"
  end.

(** The [if]/[elif] chain that turns a style and a text into a line. *)
Definition heading_line (style text : str) : str :=
  if contains (lit "Title") style then lit "# " ++ text
  else if contains (lit "Heading 1") style || str_eqb style (lit "Heading1")
  then lit "# " ++ text
  else if contains (lit "Heading 2") style || str_eqb style (lit "Heading2")
  then lit "## " ++ text
  else if contains (lit "Heading 3") style || str_eqb style (lit "Heading3")
  then lit "### " ++ text
  else if contains (lit "Heading 4") style || str_eqb style (lit "Heading4")
  then lit "#### " ++ text
  else if contains (lit "Heading 5") style || str_eqb style (lit "Heading5")
  then lit "##### " ++ text
  else if contains (lit "Heading 6") style || str_eqb style (lit "Heading6")
  then lit "###### " ++ text
  else text.

(** One iteration of the paragraph loop on [markdown_content]. *)
Definition paragraph_step (markdown_content : list str) (p : paragraph)
  : list str :=
  let text := strip (text p) in
  if truthy text
  then (markdown_content ++ [heading_line (style_name p) text]) ++ [[]]
  else markdown_content.

(** [for i, paragraph in enumerate(doc.paragraphs): ...] *)
Definition process_paragraphs (markdown_content : list str)
  (ps : list paragraph) : list str :=
  fold_left paragraph_step ps markdown_content.

(** ** Table cells and rows (identical in both scripts) *)

(** The loop over [cell.paragraphs] that builds [cell_text]. *)
Definition cell_join (ps : list paragraph) : str :=
  fold_left
    (fun cell_text para =>
       (if truthy cell_text then cell_text ++ lit " " else cell_text)
       ++ strip (text para))
    ps [].

(** [.replace("|", "\\|").replace("\n", " ").replace("\r", " ")] *)
Definition clean (s : str) : str :=
  replace [ch_return] (lit " ")
    (replace [ch_newline] (lit " ")
       (replace [ch_pipe] [ch_backslash; ch_pipe] s)).

(** What [row_data.append] receives for one cell. *)
Definition cell_text (c : cell) : str :=
  strip (clean (cell_join (cell_paragraphs c))).

Definition row_data (r : row) : list str := map cell_text (cells r).

(** [while len(row) < max_cols: row.append("")]; at most [max_cols]
    iterations are needed, which is the fuel [pad_row] gives. *)
Fixpoint pad_loop (fuel max_cols : nat) (row : list str) : list str :=
  match fuel with
  | O => row
  | S k =>
      if length row <? max_cols
      then pad_loop k max_cols (row ++ [[]])
      else row
  end.

Definition pad_row (max_cols : nat) (row : list str) : list str :=
  pad_loop max_cols max_cols row.

(** ["| " + " | ".join(row) + " |"] *)
Definition row_line (row : list str) : str :=
  lit "| " ++ join (lit " | ") row ++ lit " |".

(** Header row, separator row and data rows of a padded table.  The first
    case is [table_data[0]] on an empty list, which neither script reaches. *)
Definition grid_lines (table_data : list (list str)) : list str :=
  match table_data with
  | [] => []
  | headers :: rest =>
      row_line headers
        :: row_line (replicate (length headers) (lit "---"))
        :: map row_line rest
  end.

(** [for table_idx, table in enumerate(doc.tables)], appending the lines of
    [block table_idx table] for each table. *)
Fixpoint process_tables (block : nat -> table -> list str) (table_idx : nat)
  (ts : list table) (markdown_content : list str) : list str :=
  match ts with
  | [] => markdown_content
  | t :: ts' =>
      process_tables block (S table_idx) ts'
        (markdown_content ++ block table_idx t)
  end.

(** ** The file system and the console *)

Inductive node :=
  | DocxFile (doc : document)   (* a file python-docx opens as [doc] *)
  | TextFile (content : str)    (* a text file, as decoded text *)
  | Directory (package : option document).
      (* a directory; [Some doc] when it holds an expanded package that
         python-docx opens as [doc] *)

(** What the scripts print.  Progress and preview output is kept as one
    marker; the text of the except branch depends on the exception. *)
Inductive message :=
  | Print (line : str)
  | Progress
  | ProcessingError.

Record world := {
  files : gmap str node;
  console : list message
}.

Definition say (m : message) (w : world) : world :=
  {| files := files w; console := console w ++ [m] |}.

(** [os.path.exists(filename)] *)
Definition exists_ (filename : str) (w : world) : bool :=
  bool_decide (is_Some (files w !! filename)).

(** [Document(filename)]: python-docx opens a package file, or a directory
    that holds an expanded package; [None] stands for the exception it
    raises on anything else. *)
Definition Document (filename : str) (w : world) : option document :=
  match files w !! filename with
  | Some (DocxFile doc) => Some doc
  | Some (Directory (Some doc)) => Some doc
  | _ => None
  end.

(** [with open(output_filename, 'w', encoding='utf-8') as f: f.write(data)];
    [None] stands for the exception raised when the path is a directory.
    Other failures of the write (permissions, a missing parent directory)
    are outside the model. *)
Definition write_text (output_filename data : str) (w : world)
  : option world :=
  match files w !! output_filename with
  | Some (Directory _) => None
  | _ => Some {| files := <[output_filename := TextFile data]> (files w);
                 console := console w |}
  end.

(** [filename.replace('.docx', '_exact_extraction.md')] *)
Definition output_filename (filename : str) : str :=
  replace (lit ".docx") (lit "_exact_extraction.md") filename.

(** [print(f"Error: File '{filename}' not found")] *)
Definition not_found (filename : str) : message :=
  Print (lit "Error: File '" ++ filename ++ lit "' not found").

(** ** analyze_docx.py *)

Module analyze_docx.

(** The row loop: [table_data] and the running [max_cols]. *)
Definition collect_rows (t : table) : list (list str) * nat :=
  fold_left
    (fun '(table_data, max_cols) r =>
       let row_data := row_data r in
       (table_data ++ [row_data], Nat.max max_cols (length row_data)))
    (rows t) ([], 0).

(** The lines appended to [markdown_content] for one table. *)
Definition table_block (table_idx : nat) (t : table) : list str :=
  let '(table_data, max_cols) := collect_rows t in
  [lit "## Table " ++ str_of_nat (table_idx + 1); []]
  ++ (if truthy table_data && (0 <? max_cols)
      then
        let table_data := map (pad_row max_cols) table_data in
        if 0 <? length table_data then grid_lines table_data else []
      else [])
  ++ [[]].

(** [markdown_content] when the write step is reached. *)
Definition markdown_content (doc : document) : list str :=
  let md := process_paragraphs [] (paragraphs doc) in
  if truthy (tables doc)
  then process_tables table_block 0 (tables doc)
         (md ++ [lit "---"; []; lit "# TABLES SECTION"; []])
  else md.

(** [extract_docx_exact(filename)]: the value returned ([None] on every
    path) and the world afterwards. *)
Definition extract_docx_exact (filename : str) (w : world)
  : option str * world :=
  if negb (exists_ filename w) then (None, say (not_found filename) w)
  else
    match Document filename w with
    | None => (None, say ProcessingError w)
    | Some doc =>
        match write_text (output_filename filename)
                (join [ch_newline] (markdown_content doc)) (say Progress w)
        with
        | None => (None, say ProcessingError (say Progress w))
        | Some w' => (None, say Progress w')
        end
    end.

End analyze_docx.

(** ** extract_docx_simple.py *)

Module extract_docx_simple.

(** [table_data], one [row_data] per row. *)
Definition collect_rows (t : table) : list (list str) :=
  map row_data (rows t).

(** [max(len(row) for row in table_data)], on a non-empty [table_data]. *)
Definition max_len (table_data : list (list str)) : nat :=
  max_list (map length table_data).

(** The lines appended to [markdown_content] for one table. *)
Definition table_block (table_idx : nat) (t : table) : list str :=
  let table_data := collect_rows t in
  [lit "## Table " ++ str_of_nat (table_idx + 1); []]
  ++ (if truthy table_data
      then
        let max_cols := if truthy table_data then max_len table_data else 0 in
        let table_data := map (pad_row max_cols) table_data in
        if 0 <? max_cols then grid_lines table_data else []
      else [])
  ++ [[]].

(** [markdown_content] when the write step is reached. *)
Definition markdown_content (doc : document) : list str :=
  let md := process_paragraphs [] (paragraphs doc) in
  if truthy (tables doc)
  then process_tables table_block 0 (tables doc)
         (md ++ [lit "---"; []; lit "# DOCUMENT TABLES"; []])
  else md.

(** [extract_docx_simple(filename)]: the value returned ([None] for
    Python's [None], otherwise the output file name) and the world
    afterwards. *)
Definition extract_docx_simple (filename : str) (w : world)
  : option str * world :=
  if negb (exists_ filename w) then (None, say (not_found filename) w)
  else
    match Document filename w with
    | None => (None, say ProcessingError w)
    | Some doc =>
        match write_text (output_filename filename)
                (join [ch_newline] (markdown_content doc)) (say Progress w)
        with
        | None => (None, say ProcessingError (say Progress w))
        | Some w' => (Some (output_filename filename), say Progress w')
        end
    end.

End extract_docx_simple.

(** ** The specification's vocabulary *)

(** The style mapping as an ordered table of tests and prefixes. *)
Definition heading_rules : list ((str -> bool) * str) :=
  [ (contains (lit "Title"), lit "# ");
    (fun s => contains (lit "Heading 1") s || str_eqb s (lit "Heading1"),
     lit "# ");
    (fun s => contains (lit "Heading 2") s || str_eqb s (lit "Heading2"),
     lit "## ");
    (fun s => contains (lit "Heading 3") s || str_eqb s (lit "Heading3"),
     lit "### ");
    (fun s => contains (lit "Heading 4") s || str_eqb s (lit "Heading4"),
     lit "#### ");
    (fun s => contains (lit "Heading 5") s || str_eqb s (lit "Heading5"),
     lit "##### ");
    (fun s => contains (lit "Heading 6") s || str_eqb s (lit "Heading6"),
     lit "###### ") ].

(** The prefix of the first rule whose test holds; no prefix otherwise. *)
Fixpoint first_match (rules : list ((str -> bool) * str)) (style : str)
  : str :=
  match rules with
  | [] => []
  | (test, prefix) :: rules' =>
      if test style then prefix else first_match rules' style
  end.

(** The largest number of cells in a row of the table. *)
Definition max_cols (t : table) : nat :=
  max_list (map (fun r => length (cells r)) (rows t)).

(** The rows of the table, each right-padded with empty cells to
    [max_cols]. *)
Definition padded_rows (t : table) : list (list str) :=
  map (fun r => row_data r ++ replicate (max_cols t - length (cells r)) [])
    (rows t).

(** The first line of a table block. *)
Definition table_header (table_idx : nat) : str :=
  lit "## Table " ++ str_of_nat (table_idx + 1).

(** What escaping does to one character of a cell: a pipe gets a backslash
    before it, a newline or a carriage return becomes a space. *)
Definition escape_char (c : char) : str :=
  if (c =? ch_pipe)%N then [ch_backslash; ch_pipe]
  else if (c =? ch_newline)%N then [ch_space]
  else if (c =? ch_return)%N then [ch_space]
  else [c].

(** A pipe is escaped when the character before it is a backslash.
    [escaped] tells whether the character before [s] is one. *)
Fixpoint all_pipes_escaped (escaped : bool) (s : str) : bool :=
  match s with
  | [] => true
  | c :: s' =>
      (negb (c =? ch_pipe)%N || escaped)
      && all_pipes_escaped (c =? ch_backslash)%N s'
  end.

(** Splitting a line at its unescaped pipes; [field] is the part of the
    current piece already read. *)
Fixpoint split_unescaped (escaped : bool) (field s : str) : list str :=
  match s with
  | [] => [field]
  | c :: s' =>
      if (c =? ch_pipe)%N && negb escaped
      then field :: split_unescaped false [] s'
      else split_unescaped (c =? ch_backslash)%N (field ++ [c]) s'
  end.

(** A cell as it stands in a row line after the first pipe: between two
    spaces and before a pipe. *)
Definition wrap_cell (c : str) : str := ch_space :: c ++ [ch_space; ch_pipe].

(** The fields of a table line: the pieces between its unescaped pipes,
    without what precedes the first pipe and what follows the last. *)
Definition fields (line : str) : list str :=
  match split_unescaped false [] line with
  | [] => []
  | _ :: pieces => removelast pieces
  end.

(** The two-paragraph document of the scenario. *)
Definition report_doc : document :=
  {| paragraphs :=
       [ {| text := lit "Report"; style := Some (lit "Title") |};
         {| text := lit "Hello world"; style := Some (lit "Normal") |} ];
     tables := [] |}.

(** The text the scripts write for [report_doc], and the text with one
    more newline at the end. *)
Definition report_output : str :=
  lit "# Report" ++ [ch_newline; ch_newline] ++ lit "Hello world"
    ++ [ch_newline].

Definition report_output_two_newlines : str :=
  lit "# Report" ++ [ch_newline; ch_newline] ++ lit "Hello world"
    ++ [ch_newline; ch_newline].

(** A cell with one paragraph per given text, and the table of the
    scenario with the rows a, b and c. *)
Definition cell_of (texts : list str) : cell :=
  {| cell_paragraphs := map (fun s => {| text := s; style := None |}) texts |}.

Definition ab_c_table : table :=
  {| rows := [ {| cells := [cell_of [lit "a"]; cell_of [lit "b"]] |};
               {| cells := [cell_of [lit "c"]] |} ] |}.

(** A row whose only cell holds a pipe and a newline, and a table with
    this row and a row of two cells. *)
Definition pipe_row : row :=
  {| cells := [cell_of [lit "x|y" ++ [ch_newline] ++ lit "z"]] |}.

Definition pipe_table : table :=
  {| rows := [ {| cells := [cell_of [lit "a"]; cell_of [lit "b"]] |};
               pipe_row ] |}.

(** A world with one document, for the examples. *)
Definition one_file (filename : str) (doc : document) : world :=
  {| files := {[ filename := DocxFile doc ]}; console := [] |}.

(** ** The preview printed by analyze_docx.py *)

(** [f"{n:3d}"]: the decimal digits, right-aligned in at least three
    columns. *)
Definition format_3d (n : nat) : str :=
  let digits := str_of_nat n in
  replicate (3 - length digits) ch_space ++ digits.

(** What [for i, line in enumerate(markdown_content[:50]):
    print(f"{i+1:3d}: {line}")] prints, one element per call. *)
Definition preview_lines (markdown_content : list str) : list str :=
  imap (fun i line => format_3d (i + 1) ++ lit ": " ++ line)
    (take 50 markdown_content).

(** What is printed after the preview: the notice, when
    [len(markdown_content) > 50]. *)
Definition more_lines_notice (markdown_content : list str) : option str :=
  if 50 <? length markdown_content
  then Some ([ch_newline] ++ lit "... ("
               ++ str_of_nat (length markdown_content - 50)
               ++ lit " more lines in the file)")
  else None.

(** ** Closed forms used to state the structure of the output *)

(** The lines one paragraph adds. *)
Definition paragraph_lines (p : paragraph) : list str :=
  if truthy (strip (text p))
  then [heading_line (style_name p) (strip (text p)); []]
  else [].

(** The lines of a document whose table section has the title [title] and
    whose tables are rendered by [block]. *)
Definition document_lines (title : str) (block : nat -> table -> list str)
  (doc : document) : list str :=
  flat_map paragraph_lines (paragraphs doc)
  ++ (if truthy (tables doc)
      then [lit "---"; []; title; []] ++ concat (imap block (tables doc))
      else []).

(** The prefix of a heading of level [k]; no prefix at level 0. *)
Definition heading_prefix (k : nat) : str :=
  match k with
  | O => []
  | S _ => replicate k 35%N ++ [ch_space]
  end.

(** A paragraph is blank when nothing is left of its text after trimming. *)
Definition blank (p : paragraph) : bool := negb (truthy (strip (text p))).

(** A list of lines ends with an empty line that is not its only line. *)
Definition ends_with_empty_line (lines : list str) : Prop :=
  exists lines', lines' <> [] /\ lines = lines' ++ [[]].

(** * Properties *)

(** ** Small checks of the string operations *)

Example replace_ex1 :
  replace (lit ".docx") (lit "_exact_extraction.md") (lit "a.docx")
  = lit "a_exact_extraction.md".
Proof. reflexivity. Qed.

Example strip_ex1 : strip (lit "  a b  ") = lit "a b".
Proof. reflexivity. Qed.

Example str_of_nat_ex : str_of_nat 12 = lit "12".
Proof. reflexivity. Qed.

(** ** Literals *)

Lemma lit_docx : lit ".docx" = [46; 100; 111; 99; 120]%N.
Proof. reflexivity. Qed.

(** ** The paragraph loop *)

Lemma truthy_true {A} (l : list A) : truthy l = true <-> l <> [].
Proof. destruct l; simpl; split; congruence. Qed.

Lemma paragraph_step_nonempty md p :
  strip (text p) <> [] ->
  paragraph_step md p
  = md ++ [heading_line (style_name p) (strip (text p)); []].
Proof.
  intros Hne. unfold paragraph_step.
  destruct (strip (text p)) as [|c t] eqn:E; [congruence|].
  simpl. by rewrite <- app_assoc.
Qed.

Lemma paragraph_step_empty md p :
  strip (text p) = [] -> paragraph_step md p = md.
Proof. intros E. unfold paragraph_step. by rewrite E. Qed.

Lemma process_paragraphs_app md ps qs :
  process_paragraphs md (ps ++ qs)
  = process_paragraphs (process_paragraphs md ps) qs.
Proof. apply fold_left_app. Qed.

Lemma heading_line_first_match style t :
  heading_line style t = first_match heading_rules style ++ t.
Proof.
  unfold heading_line, heading_rules, first_match.
  repeat match goal with
         | |- context [if ?b then _ else _] => destruct b; [reflexivity|]
         end.
  reflexivity.
Qed.

Lemma heading2_line style t :
  contains (lit "Heading 2") style = true ->
  contains (lit "Title") style = false ->
  contains (lit "Heading 1") style = false ->
  heading_line style t = lit "## " ++ t.
Proof.
  intros H2 HT H1. unfold heading_line. rewrite HT, H1, H2. simpl.
  destruct (str_eqb style (lit "Heading1")) eqn:E; [|reflexivity].
  apply bool_decide_eq_true in E. subst style. discriminate H2.
Qed.

(** C1, amended: for a paragraph whose trimmed text is not empty, the line
    appended is the trimmed text after the prefix of the first rule of the
    ordered style table that matches (no prefix when none does), followed by
    an empty line; and a style name that contains "Heading 2" but neither
    "Title" nor "Heading 1" gives exactly the prefix "## ". *)
Theorem heading_prefix_first_match (md : list str) (p : paragraph) :
  strip (text p) <> [] ->
  paragraph_step md p
  = md ++ [first_match heading_rules (style_name p) ++ strip (text p); []]
  /\ (contains (lit "Heading 2") (style_name p) = true ->
      contains (lit "Title") (style_name p) = false ->
      contains (lit "Heading 1") (style_name p) = false ->
      paragraph_step md p = md ++ [lit "## " ++ strip (text p); []]).
Proof.
  intros Hne. rewrite (paragraph_step_nonempty md p Hne). split.
  - by rewrite heading_line_first_match.
  - intros H2 HT H1. by rewrite heading2_line.
Qed.

Lemma heading_prefix_first_match_witness :
  paragraph_step []
    {| text := lit " Scope "; style := Some (lit "Heading 2 Char") |}
  = [lit "## Scope"; []].
Proof.
  refine (proj2 (heading_prefix_first_match []
                   {| text := lit " Scope ";
                      style := Some (lit "Heading 2 Char") |} _) _ _ _).
  - vm_compute. discriminate.
  - reflexivity.
  - reflexivity.
  - reflexivity.
Defined.

(** C1 as stated fails: the style "Title Heading 2" contains "Heading 2",
    and the rule for "Title" comes first, so the line starts with "# ". *)
Lemma heading2_after_title_counterexample :
  contains (lit "Heading 2") (lit "Title Heading 2") = true
  /\ paragraph_step []
       {| text := lit "x"; style := Some (lit "Title Heading 2") |}
     = [lit "# x"; []]
  /\ startswith (lit "## ") (lit "# x") = false.
Proof. repeat split. Qed.

(** C9: a paragraph whose trimmed text is empty appends nothing, wherever
    it stands among the paragraphs of the document. *)
Theorem empty_paragraph_no_lines (pre post : list paragraph) (p : paragraph)
  (md : list str) (ts : list table) :
  strip (text p) = [] ->
  paragraph_step md p = md
  /\ process_paragraphs md (pre ++ p :: post)
     = process_paragraphs md (pre ++ post)
  /\ analyze_docx.markdown_content
       {| paragraphs := pre ++ p :: post; tables := ts |}
     = analyze_docx.markdown_content
         {| paragraphs := pre ++ post; tables := ts |}
  /\ extract_docx_simple.markdown_content
       {| paragraphs := pre ++ p :: post; tables := ts |}
     = extract_docx_simple.markdown_content
         {| paragraphs := pre ++ post; tables := ts |}.
Proof.
  intros E.
  assert (Hskip : forall md', process_paragraphs md' (pre ++ p :: post)
                              = process_paragraphs md' (pre ++ post)).
  { intros md'. rewrite !process_paragraphs_app. simpl.
    unfold process_paragraphs at 1. simpl.
    by rewrite (paragraph_step_empty _ p E). }
  split; [by apply paragraph_step_empty|].
  split; [apply Hskip|].
  unfold analyze_docx.markdown_content, extract_docx_simple.markdown_content.
  simpl. by rewrite !Hskip.
Qed.

Lemma empty_paragraph_no_lines_witness :
  process_paragraphs []
    ([ {| text := lit "a"; style := None |} ]
       ++ {| text := lit "  "; style := Some (lit "Heading 1") |}
       :: [ {| text := lit "b"; style := None |} ])
  = process_paragraphs []
      ([ {| text := lit "a"; style := None |} ]
         ++ [ {| text := lit "b"; style := None |} ]).
Proof.
  refine (proj1 (proj2 (empty_paragraph_no_lines _ _ _ [] [] _))).
  reflexivity.
Defined.

(** C10: a paragraph without style, whose trimmed text is not empty, is
    handled under the style name "Normal": its trimmed text is appended
    without any prefix. *)
Theorem absent_style_plain_text (md : list str) (p : paragraph) :
  style p = None ->
  strip (text p) <> [] ->
  style_name p = lit "Normal"
  /\ paragraph_step md p = md ++ [strip (text p); []].
Proof.
  intros Hs Hne. unfold style_name. rewrite Hs. split; [reflexivity|].
  rewrite (paragraph_step_nonempty md p Hne).
  unfold style_name. by rewrite Hs.
Qed.

Lemma absent_style_plain_text_witness :
  style_name {| text := lit " # body "; style := None |} = lit "Normal"
  /\ paragraph_step [lit "x"] {| text := lit " # body "; style := None |}
     = [lit "x"; lit "# body"; []].
Proof.
  refine (absent_style_plain_text [lit "x"]
            {| text := lit " # body "; style := None |} _ _).
  - reflexivity.
  - vm_compute. discriminate.
Defined.

(** ** Running the scripts *)

Lemma exists_lookup filename w :
  exists_ filename w = true <-> files w !! filename <> None.
Proof.
  unfold exists_. rewrite bool_decide_eq_true.
  destruct (files w !! filename); split; intros H; done.
Qed.

Lemma write_text_ok out data w :
  (forall package, files w !! out <> Some (Directory package)) ->
  write_text out data w
  = Some {| files := <[out := TextFile data]> (files w);
            console := console w |}.
Proof.
  intros H. unfold write_text.
  destruct (files w !! out) as [[ | |package]|]; try done.
  by destruct (H package).
Qed.

Lemma extract_docx_exact_success filename w doc :
  files w !! filename = Some (DocxFile doc) ->
  (forall package,
     files w !! output_filename filename <> Some (Directory package)) ->
  analyze_docx.extract_docx_exact filename w
  = (None,
     {| files :=
          <[output_filename filename :=
              TextFile (join [ch_newline] (analyze_docx.markdown_content doc))]>
            (files w);
        console := console w ++ [Progress; Progress] |}).
Proof.
  intros Hin Hout. unfold analyze_docx.extract_docx_exact.
  assert (exists_ filename w = true) as ->
    by (apply exists_lookup; congruence).
  unfold Document. rewrite Hin. simpl.
  rewrite write_text_ok by done.
  unfold say. simpl. by rewrite <- app_assoc.
Qed.

Lemma extract_docx_simple_success filename w doc :
  files w !! filename = Some (DocxFile doc) ->
  (forall package,
     files w !! output_filename filename <> Some (Directory package)) ->
  extract_docx_simple.extract_docx_simple filename w
  = (Some (output_filename filename),
     {| files :=
          <[output_filename filename :=
              TextFile
                (join [ch_newline] (extract_docx_simple.markdown_content doc))]>
            (files w);
        console := console w ++ [Progress; Progress] |}).
Proof.
  intros Hin Hout. unfold extract_docx_simple.extract_docx_simple.
  assert (exists_ filename w = true) as ->
    by (apply exists_lookup; congruence).
  unfold Document. rewrite Hin. simpl.
  rewrite write_text_ok by done.
  unfold say. simpl. by rewrite <- app_assoc.
Qed.

(** C6, amended: for the document with the paragraphs ("Title", "Report")
    and ("Normal", "Hello world") and no table, the lines are "# Report",
    "", "Hello world", "", and the file written holds them joined by
    newlines, "# Report\n\nHello world\n" with one newline at the end; no
    "---" rule and no table section occurs in it. *)
Theorem report_scenario_output (filename : str) (w : world) :
  files w !! filename = Some (DocxFile report_doc) ->
  (forall package,
     files w !! output_filename filename <> Some (Directory package)) ->
  analyze_docx.markdown_content report_doc
  = [lit "# Report"; []; lit "Hello world"; []]
  /\ extract_docx_simple.markdown_content report_doc
     = [lit "# Report"; []; lit "Hello world"; []]
  /\ files (analyze_docx.extract_docx_exact filename w).2
       !! output_filename filename
     = Some (TextFile report_output)
  /\ files (extract_docx_simple.extract_docx_simple filename w).2
       !! output_filename filename
     = Some (TextFile report_output)
  /\ contains (lit "---") report_output = false
  /\ contains (lit "TABLES") report_output = false
  /\ contains (lit "## Table") report_output = false.
Proof.
  intros Hin Hout.
  rewrite (extract_docx_exact_success filename w report_doc Hin Hout).
  rewrite (extract_docx_simple_success filename w report_doc Hin Hout).
  simpl. rewrite !lookup_insert_eq. repeat split.
Qed.

Lemma report_scenario_output_witness :
  files (extract_docx_simple.extract_docx_simple (lit "r.docx")
           (one_file (lit "r.docx") report_doc)).2
    !! output_filename (lit "r.docx")
  = Some (TextFile report_output).
Proof.
  refine (proj1 (proj2 (proj2 (proj2
            (report_scenario_output (lit "r.docx")
               (one_file (lit "r.docx") report_doc) _ _))))).
  - apply lookup_singleton_eq.
  - simpl. rewrite lookup_singleton_ne; [discriminate|].
    vm_compute. discriminate.
Defined.

(** C6 as stated fails: four lines are joined by three newlines, so the
    text written ends with one newline, not two. *)
Lemma report_two_newlines_counterexample :
  files (extract_docx_simple.extract_docx_simple (lit "r.docx")
           (one_file (lit "r.docx") report_doc)).2
    !! lit "r_exact_extraction.md"
  <> Some (TextFile report_output_two_newlines)
  /\ join [ch_newline] (analyze_docx.markdown_content report_doc)
     <> report_output_two_newlines.
Proof.
  split; [|discriminate].
  rewrite (extract_docx_simple_success (lit "r.docx") _ report_doc).
  - change (output_filename (lit "r.docx"))
      with (lit "r_exact_extraction.md").
    simpl. rewrite lookup_insert_eq. discriminate.
  - apply lookup_singleton_eq.
  - simpl. rewrite lookup_singleton_ne; [discriminate|].
    vm_compute. discriminate.
Qed.

(** ** The output file name *)

(** ".docx" does not overlap itself: an occurrence that starts inside
    [x] and reaches into a following ".docx" lies within [x]. *)
Lemma startswith_docx_app x :
  x <> [] ->
  startswith (lit ".docx") (x ++ lit ".docx") = true ->
  startswith (lit ".docx") x = true.
Proof.
  rewrite lit_docx. intros Hx H.
  destruct x as [|c0 [|c1 [|c2 [|c3 [|c4 x]]]]]; [done|..]; simpl in *;
    repeat match goal with
           | H : (_ && _) = true |- _ => apply andb_prop in H as [? H]
           end;
    try discriminate.
  repeat (apply andb_true_intro; split); done.
Qed.

Lemma replace_docx_stem stem new :
  contains (lit ".docx") stem = false ->
  replace_from (lit ".docx") new 0 (stem ++ lit ".docx") = stem ++ new.
Proof.
  induction stem as [|c stem IH]; intros Hno.
  - rewrite lit_docx. simpl. by rewrite app_nil_r.
  - cbn [contains] in Hno. apply orb_false_elim in Hno as [Hhere Hrest].
    change ((c :: stem) ++ lit ".docx") with (c :: (stem ++ lit ".docx")).
    cbn [replace_from].
    destruct (startswith (lit ".docx") (c :: stem ++ lit ".docx")) eqn:E.
    + apply (startswith_docx_app (c :: stem)) in E; [congruence|done].
    + simpl. f_equal. by apply IH.
Qed.

Lemma output_filename_stem stem :
  contains (lit ".docx") stem = false ->
  output_filename (stem ++ lit ".docx")
  = stem ++ lit "_exact_extraction.md".
Proof.
  intros Hno. unfold output_filename.
  rewrite <- (replace_docx_stem stem (lit "_exact_extraction.md") Hno).
  by rewrite lit_docx.
Qed.

(** C4, amended: for an input path that ends in ".docx" and contains
    ".docx" nowhere else, the output is written to the file named by the
    path with that ending replaced by "_exact_extraction.md"
    ([extract_docx_simple] returns this name). *)
Theorem output_path_replaces_extension (stem : str) (doc : document)
  (w : world) :
  contains (lit ".docx") stem = false ->
  files w !! (stem ++ lit ".docx") = Some (DocxFile doc) ->
  (forall package,
     files w !! (stem ++ lit "_exact_extraction.md")
     <> Some (Directory package)) ->
  output_filename (stem ++ lit ".docx") = stem ++ lit "_exact_extraction.md"
  /\ analyze_docx.extract_docx_exact (stem ++ lit ".docx") w
     = (None,
        {| files :=
             <[stem ++ lit "_exact_extraction.md" :=
                 TextFile
                   (join [ch_newline] (analyze_docx.markdown_content doc))]>
               (files w);
           console := console w ++ [Progress; Progress] |})
  /\ extract_docx_simple.extract_docx_simple (stem ++ lit ".docx") w
     = (Some (stem ++ lit "_exact_extraction.md"),
        {| files :=
             <[stem ++ lit "_exact_extraction.md" :=
                 TextFile
                   (join [ch_newline]
                      (extract_docx_simple.markdown_content doc))]>
               (files w);
           console := console w ++ [Progress; Progress] |}).
Proof.
  intros Hno Hin Hout.
  pose proof (output_filename_stem stem Hno) as Hname.
  rewrite <- Hname in Hout |- *.
  split; [reflexivity|]. split.
  - by apply extract_docx_exact_success.
  - by apply extract_docx_simple_success.
Qed.

Lemma output_path_replaces_extension_witness :
  output_filename (lit "notes" ++ lit ".docx")
  = lit "notes" ++ lit "_exact_extraction.md".
Proof.
  refine (proj1 (output_path_replaces_extension (lit "notes") report_doc
                   (one_file (lit "notes.docx") report_doc) _ _ _)).
  - reflexivity.
  - apply lookup_singleton_eq.
  - simpl. rewrite lookup_singleton_ne; [discriminate|].
    vm_compute. discriminate.
Defined.

(** C4 as stated fails: every occurrence of ".docx" is replaced, so for
    "a.docx.docx" the output is not the stem "a.docx" followed by
    "_exact_extraction.md"; and a name without ".docx" is its own output
    name. *)
Lemma output_path_counterexample :
  (extract_docx_simple.extract_docx_simple (lit "a.docx.docx")
     (one_file (lit "a.docx.docx") report_doc)).1
  = Some (lit "a_exact_extraction.md_exact_extraction.md")
  /\ output_filename (lit "a.docx" ++ lit ".docx")
     <> lit "a.docx" ++ lit "_exact_extraction.md"
  /\ output_filename (lit "notes.DOCX") = lit "notes.DOCX".
Proof.
  split; [|split; [discriminate|reflexivity]].
  rewrite (extract_docx_simple_success (lit "a.docx.docx") _ report_doc).
  - reflexivity.
  - apply lookup_singleton_eq.
  - simpl. rewrite lookup_singleton_ne; [discriminate|].
    vm_compute. discriminate.
Qed.

(** ** Tables: rows, padding and the two variants of the block *)

Lemma pad_loop_spec fuel n (row : list str) :
  n - length row <= fuel ->
  pad_loop fuel n row = row ++ replicate (n - length row) [].
Proof.
  revert row. induction fuel as [|fuel IH]; intros row Hfuel; simpl.
  - replace (n - length row) with 0 by lia. by rewrite app_nil_r.
  - destruct (Nat.ltb_spec (length row) n) as [Hlt|Hge].
    + rewrite IH by (rewrite length_app; simpl; lia).
      rewrite length_app. simpl.
      replace (n - length row) with (S (n - (length row + 1))) by lia.
      simpl. by rewrite <- app_assoc.
    + replace (n - length row) with 0 by lia. by rewrite app_nil_r.
Qed.

Lemma pad_row_spec n (row : list str) :
  pad_row n row = row ++ replicate (n - length row) [].
Proof. apply pad_loop_spec. lia. Qed.

Lemma length_row_data r : length (row_data r) = length (cells r).
Proof. apply length_map. Qed.

Lemma max_list_row_data rs :
  max_list (map length (map row_data rs))
  = max_list (map (fun r => length (cells r)) rs).
Proof.
  induction rs as [|r rs IH]; [done|].
  simpl. by rewrite IH, length_row_data.
Qed.

Lemma analyze_collect_rows t :
  analyze_docx.collect_rows t = (map row_data (rows t), max_cols t).
Proof.
  unfold analyze_docx.collect_rows, max_cols.
  enough (forall rs td mc,
    fold_left
      (fun '(table_data, max_cols) r =>
         let row_data := row_data r in
         (table_data ++ [row_data], Nat.max max_cols (length row_data)))
      rs (td, mc)
    = (td ++ map row_data rs,
       Nat.max mc (max_list (map (fun r => length (cells r)) rs)))) as H
    by apply (H (rows t) [] 0).
  induction rs as [|r rs IH]; intros td mc; simpl.
  - by rewrite app_nil_r, Nat.max_0_r.
  - rewrite IH, <- app_assoc, length_row_data. simpl.
    by rewrite Nat.max_assoc.
Qed.

Lemma simple_max_len t :
  extract_docx_simple.max_len (extract_docx_simple.collect_rows t)
  = max_cols t.
Proof. apply max_list_row_data. Qed.

Lemma pad_rows_spec t :
  map (pad_row (max_cols t)) (map row_data (rows t)) = padded_rows t.
Proof.
  unfold padded_rows. rewrite map_map. apply map_ext. intros r.
  by rewrite pad_row_spec, length_row_data.
Qed.

Lemma analyze_table_block table_idx t :
  analyze_docx.table_block table_idx t
  = [table_header table_idx; []]
    ++ (if truthy (rows t) && (0 <? max_cols t)
        then grid_lines (padded_rows t) else [])
    ++ [[]].
Proof.
  unfold analyze_docx.table_block. rewrite analyze_collect_rows.
  rewrite pad_rows_spec. unfold padded_rows.
  destruct (rows t) as [|r rs]; [done|]. simpl.
  by destruct (0 <? max_cols t).
Qed.

Lemma simple_table_block table_idx t :
  extract_docx_simple.table_block table_idx t
  = [table_header table_idx; []]
    ++ (if truthy (rows t) && (0 <? max_cols t)
        then grid_lines (padded_rows t) else [])
    ++ [[]].
Proof.
  unfold extract_docx_simple.table_block.
  destruct (truthy (extract_docx_simple.collect_rows t)) eqn:E.
  - rewrite simple_max_len. unfold extract_docx_simple.collect_rows in *.
    rewrite pad_rows_spec.
    destruct (rows t); [discriminate|]. done.
  - unfold extract_docx_simple.collect_rows in E.
    destruct (rows t); [done|discriminate].
Qed.

(** C5, amended: for a table without rows, or whose rows all have no cell,
    the lines appended are the header "## Table N", the empty line after it
    and the empty line that ends every table block; no grid line. *)
Theorem empty_table_block (table_idx : nat) (t : table) :
  rows t = [] \/ max_cols t = 0 ->
  analyze_docx.table_block table_idx t
  = [lit "## Table " ++ str_of_nat (table_idx + 1); []; []]
  /\ extract_docx_simple.table_block table_idx t
     = [lit "## Table " ++ str_of_nat (table_idx + 1); []; []].
Proof.
  intros H. rewrite analyze_table_block, simple_table_block.
  assert (truthy (rows t) && (0 <? max_cols t) = false) as ->; [|done].
  destruct H as [-> | ->]; [done|]. apply andb_false_r.
Qed.

Lemma empty_table_block_witness :
  analyze_docx.table_block 2 {| rows := [ {| cells := [] |} ] |}
  = [lit "## Table 3"; []; []]
  /\ extract_docx_simple.table_block 2 {| rows := [ {| cells := [] |} ] |}
     = [lit "## Table 3"; []; []].
Proof.
  refine (empty_table_block 2 {| rows := [ {| cells := [] |} ] |} _).
  right. reflexivity.
Defined.

(** C5 as stated fails: the block of a table without rows has three lines,
    the header and two empty lines, not the header and one empty line. *)
Lemma empty_table_block_counterexample :
  analyze_docx.table_block 0 {| rows := [] |} <> [lit "## Table 1"; []]
  /\ extract_docx_simple.table_block 0 {| rows := [] |}
     <> [lit "## Table 1"; []]
  /\ join [ch_newline]
       (analyze_docx.markdown_content
          {| paragraphs := [];
             tables := [ {| rows := [] |}; {| rows := [] |} ] |})
     = lit "---" ++ [ch_newline; ch_newline] ++ lit "# TABLES SECTION"
       ++ [ch_newline; ch_newline] ++ lit "## Table 1"
       ++ [ch_newline; ch_newline; ch_newline] ++ lit "## Table 2"
       ++ [ch_newline; ch_newline].
Proof. split; [discriminate|split; [discriminate|reflexivity]]. Qed.

(** ** Escaping and trimming of a cell *)

Lemma replace_char a new s :
  replace [a] new s
  = flat_map (fun c => if (a =? c)%N then new else [c]) s.
Proof.
  unfold replace.
  induction s as [|c s IH]; [done|].
  cbn [replace_from flat_map startswith length Nat.sub].
  rewrite andb_true_r. destruct (a =? c)%N; simpl; by rewrite IH.
Qed.

Lemma clean_escape_char s : clean s = flat_map escape_char s.
Proof.
  unfold clean. rewrite !replace_char.
  induction s as [|c s IH]; [done|].
  cbn [flat_map]. rewrite !flat_map_app. f_equal; [|exact IH].
  unfold escape_char, ch_pipe, ch_newline, ch_return, ch_backslash, ch_space.
  destruct (N.eqb_spec 124 c) as [<-|Hp]; [done|].
  rewrite (proj2 (N.eqb_neq c 124)) by congruence. cbn [flat_map app].
  destruct (N.eqb_spec 10 c) as [<-|Hn]; [done|].
  rewrite (proj2 (N.eqb_neq c 10)) by congruence. cbn [flat_map app].
  destruct (N.eqb_spec 13 c) as [<-|Hr]; [done|].
  by rewrite (proj2 (N.eqb_neq c 13)) by congruence.
Qed.

Lemma escape_char_space c :
  is_space c = true ->
  exists c', escape_char c = [c'] /\ is_space c' = true.
Proof.
  intros Hc. unfold escape_char.
  destruct (N.eqb_spec c ch_pipe) as [->|_]; [discriminate|].
  destruct (c =? ch_newline)%N; [by exists ch_space|].
  destruct (c =? ch_return)%N; [by exists ch_space|].
  by exists c.
Qed.

Lemma escape_char_first c :
  is_space c = false ->
  exists h t, escape_char c = h :: t /\ is_space h = false.
Proof.
  intros Hc. unfold escape_char.
  destruct (c =? ch_pipe)%N; [by exists ch_backslash, [ch_pipe]|].
  destruct (N.eqb_spec c ch_newline) as [->|_]; [discriminate|].
  destruct (N.eqb_spec c ch_return) as [->|_]; [discriminate|].
  by exists c, [].
Qed.

Lemma escape_char_last c :
  is_space c = false ->
  exists h t, rev (escape_char c) = h :: t /\ is_space h = false.
Proof.
  intros Hc. unfold escape_char.
  destruct (c =? ch_pipe)%N; [by exists ch_pipe, [ch_backslash]|].
  destruct (N.eqb_spec c ch_newline) as [->|_]; [discriminate|].
  destruct (N.eqb_spec c ch_return) as [->|_]; [discriminate|].
  by exists c, [].
Qed.

(** Trimming on the left commutes with a character-wise rewriting that
    sends blanks to blanks and other characters to words that start with
    a character that is not blank. *)
Lemma lstrip_flat_map (g : char -> str) s :
  (forall c, is_space c = true ->
             exists c', g c = [c'] /\ is_space c' = true) ->
  (forall c, is_space c = false ->
             exists h t, g c = h :: t /\ is_space h = false) ->
  lstrip (flat_map g s) = flat_map g (lstrip s).
Proof.
  intros Hsp Hns. induction s as [|c s IH]; [done|].
  cbn [flat_map lstrip]. destruct (is_space c) eqn:Ec.
  - destruct (Hsp c Ec) as (c' & -> & Ec'). simpl. by rewrite Ec'.
  - destruct (Hns c Ec) as (h & t & E & Eh). rewrite E. simpl.
    rewrite Eh. cbn [flat_map]. by rewrite E.
Qed.

Lemma rev_flat_map (g : char -> str) s :
  rev (flat_map g s) = flat_map (fun c => rev (g c)) (rev s).
Proof.
  induction s as [|c s IH]; [done|].
  cbn [flat_map rev]. rewrite rev_app_distr, IH, flat_map_app. simpl.
  by rewrite app_nil_r.
Qed.

Lemma strip_escape s :
  strip (flat_map escape_char s) = flat_map escape_char (strip s).
Proof.
  unfold strip, rstrip.
  rewrite (lstrip_flat_map escape_char)
    by (apply escape_char_space || apply escape_char_first).
  rewrite rev_flat_map.
  rewrite (lstrip_flat_map (fun c => rev (escape_char c))).
  - rewrite rev_flat_map. apply flat_map_ext. intros c. apply rev_involutive.
  - intros c Hc. destruct (escape_char_space c Hc) as (c' & -> & Hc').
    by exists c'.
  - apply escape_char_last.
Qed.

(** The cell text, read as in the specification: join, trim, then escape. *)
Lemma cell_text_escape c :
  cell_text c
  = flat_map escape_char (strip (cell_join (cell_paragraphs c))).
Proof. unfold cell_text. by rewrite clean_escape_char, strip_escape. Qed.

Lemma all_pipes_escaped_escape s :
  forall escaped, all_pipes_escaped escaped (flat_map escape_char s) = true.
Proof.
  induction s as [|c s IH]; intros escaped; [done|].
  cbn [flat_map]. unfold escape_char.
  destruct (N.eqb_spec c ch_pipe) as [->|Hp].
  - simpl. apply IH.
  - destruct (c =? ch_newline)%N; [simpl; apply IH|].
    destruct (c =? ch_return)%N; [simpl; apply IH|].
    cbn [app all_pipes_escaped].
    rewrite (proj2 (N.eqb_neq c ch_pipe) Hp). simpl. apply IH.
Qed.

Lemma escape_char_no_line_break c x :
  x ∈ escape_char c -> x <> ch_newline /\ x <> ch_return.
Proof.
  unfold escape_char.
  destruct (c =? ch_pipe)%N.
  { intros H. apply elem_of_cons in H as [->|H]; [done|].
    apply list_elem_of_singleton in H as ->. done. }
  destruct (N.eqb_spec c ch_newline) as [->|Hn].
  { intros H. apply list_elem_of_singleton in H as ->. done. }
  destruct (N.eqb_spec c ch_return) as [->|Hr].
  { intros H. apply list_elem_of_singleton in H as ->. done. }
  intros H. apply list_elem_of_singleton in H as ->. done.
Qed.

Lemma escape_no_line_break s x :
  x ∈ flat_map escape_char s -> x <> ch_newline /\ x <> ch_return.
Proof.
  intros H. apply list_elem_of_In, in_flat_map in H as (c & _ & Hc).
  apply list_elem_of_In in Hc. by apply (escape_char_no_line_break c).
Qed.

(** ** Splitting a row line at its unescaped pipes *)

Lemma split_unescaped_cell x :
  forall escaped field rest,
    all_pipes_escaped escaped x = true ->
    split_unescaped escaped field (x ++ ch_space :: ch_pipe :: rest)
    = (field ++ x ++ [ch_space]) :: split_unescaped false [] rest.
Proof.
  induction x as [|c x IH]; intros escaped field rest Hsafe.
  - reflexivity.
  - cbn [all_pipes_escaped] in Hsafe.
    apply andb_prop in Hsafe as [Hc Hx].
    cbn [app split_unescaped].
    assert ((c =? ch_pipe)%N && negb escaped = false) as ->
      by (destruct (c =? ch_pipe)%N, escaped; done).
    rewrite (IH _ _ _ Hx). by rewrite <- app_assoc.
Qed.

Lemma join_wrap c cs :
  join (lit " | ") (c :: cs) ++ lit " |"
  = c ++ [ch_space; ch_pipe] ++ flat_map wrap_cell cs.
Proof.
  revert c. induction cs as [|c2 cs IH]; intros c.
  - reflexivity.
  - change (join (lit " | ") (c :: c2 :: cs))
      with (c ++ lit " | " ++ join (lit " | ") (c2 :: cs)).
    rewrite <- !app_assoc, IH. unfold wrap_cell. cbn [flat_map]. f_equal.
    change (lit " | ") with [ch_space; ch_pipe; ch_space]. cbn [app].
    by rewrite <- app_assoc.
Qed.

Lemma row_line_wrap row :
  row <> [] -> row_line row = ch_pipe :: flat_map wrap_cell row.
Proof.
  destruct row as [|c cs]; [done|]. intros _.
  unfold row_line. rewrite join_wrap.
  cbn [flat_map]. unfold wrap_cell at 1.
  change (lit "| ") with [ch_pipe; ch_space]. simpl.
  by rewrite <- app_assoc.
Qed.

Lemma split_unescaped_wrap row :
  Forall (fun c => all_pipes_escaped false c = true) row ->
  split_unescaped false [] (flat_map wrap_cell row)
  = map (fun c => ch_space :: c ++ [ch_space]) row ++ [[]].
Proof.
  induction 1 as [|c cs Hc _ IH]; [done|].
  cbn [flat_map map]. unfold wrap_cell at 1.
  replace ((ch_space :: c ++ [ch_space; ch_pipe]) ++ flat_map wrap_cell cs)
    with ((ch_space :: c) ++ ch_space :: ch_pipe :: flat_map wrap_cell cs)
    by (simpl; by rewrite <- app_assoc).
  rewrite split_unescaped_cell by done.
  by rewrite IH.
Qed.

(** A line built from cells whose pipes are all escaped splits into these
    cells, each between two spaces, after an empty piece and before an
    empty piece. *)
Lemma split_row_line row :
  row <> [] ->
  Forall (fun c => all_pipes_escaped false c = true) row ->
  split_unescaped false [] (row_line row)
  = [] :: map (fun c => ch_space :: c ++ [ch_space]) row ++ [[]].
Proof.
  intros Hne Hsafe. rewrite row_line_wrap by done.
  cbn [split_unescaped]. simpl. by rewrite split_unescaped_wrap.
Qed.

Lemma fields_row_line row :
  row <> [] ->
  Forall (fun c => all_pipes_escaped false c = true) row ->
  fields (row_line row) = map (fun c => ch_space :: c ++ [ch_space]) row.
Proof.
  intros Hne Hsafe. unfold fields. rewrite split_row_line by done.
  apply removelast_last.
Qed.

(** ** The grid of a table *)

Lemma cells_le_max_cols t r : r ∈ rows t -> length (cells r) <= max_cols t.
Proof.
  intros Hr. unfold max_cols. apply max_list_elem_of_le.
  apply list_elem_of_In, (in_map (fun r => length (cells r))).
  by apply list_elem_of_In.
Qed.

Lemma cell_text_safe c : all_pipes_escaped false (cell_text c) = true.
Proof. rewrite cell_text_escape. apply all_pipes_escaped_escape. Qed.

Lemma padded_row_safe n r :
  Forall (fun c => all_pipes_escaped false c = true)
    (row_data r ++ replicate n []).
Proof.
  apply Forall_app. split.
  - unfold row_data. apply Forall_forall. intros x Hx.
    apply list_elem_of_In, in_map_iff in Hx as (c & <- & _).
    apply cell_text_safe.
  - by apply Forall_replicate.
Qed.

Lemma padded_row_length t r :
  r ∈ rows t ->
  length (row_data r ++ replicate (max_cols t - length (cells r)) [])
  = max_cols t.
Proof.
  intros Hr. rewrite length_app, length_replicate, length_row_data.
  pose proof (cells_le_max_cols t r Hr). lia.
Qed.

Lemma padded_rows_length t :
  Forall (fun row => length row = max_cols t) (padded_rows t).
Proof.
  apply Forall_forall. intros row Hrow.
  apply list_elem_of_In, in_map_iff in Hrow as (r & <- & Hr).
  apply padded_row_length. by apply list_elem_of_In.
Qed.

Lemma padded_rows_safe t :
  Forall (Forall (fun c => all_pipes_escaped false c = true))
    (padded_rows t).
Proof.
  apply Forall_forall. intros row Hrow.
  apply list_elem_of_In, in_map_iff in Hrow as (r & <- & _).
  apply padded_row_safe.
Qed.

Lemma length_nonempty {A} (l : list A) n : length l = n -> 0 < n -> l <> [].
Proof. intros <- H ->. simpl in H. lia. Qed.

Lemma fields_separator n :
  0 < n ->
  fields (row_line (replicate n (lit "---"))) = replicate n (lit " --- ").
Proof.
  intros Hn. rewrite fields_row_line.
  - change (map ?f ?l) with (f <$> l). by rewrite fmap_replicate.
  - apply (length_nonempty _ n); [apply length_replicate|done].
  - by apply Forall_replicate.
Qed.

Lemma fields_padded_row t row :
  0 < max_cols t ->
  row ∈ padded_rows t ->
  fields (row_line row) = map (fun c => ch_space :: c ++ [ch_space]) row
  /\ length (fields (row_line row)) = max_cols t.
Proof.
  intros Hpos Hrow.
  pose proof (proj1 (Forall_forall _ _) (padded_rows_length t) row Hrow)
    as Hlen.
  pose proof (proj1 (Forall_forall _ _) (padded_rows_safe t) row Hrow)
    as Hsafe.
  assert (fields (row_line row)
          = map (fun c => ch_space :: c ++ [ch_space]) row) as E.
  { apply fields_row_line; [|done]. by apply (length_nonempty _ (max_cols t)). }
  split; [done|]. by rewrite E, length_map.
Qed.

Lemma table_block_rendered table_idx t :
  rows t <> [] ->
  0 < max_cols t ->
  analyze_docx.table_block table_idx t
  = [table_header table_idx; []] ++ grid_lines (padded_rows t) ++ [[]]
  /\ extract_docx_simple.table_block table_idx t
     = [table_header table_idx; []] ++ grid_lines (padded_rows t) ++ [[]].
Proof.
  intros Hrows Hpos. rewrite analyze_table_block, simple_table_block.
  assert (truthy (rows t) && (0 <? max_cols t) = true) as ->; [|done].
  apply andb_true_intro. split.
  - by apply truthy_true.
  - by apply Nat.ltb_lt.
Qed.

(** C2: in a table that has a row with a cell, the block consists of the
    header "## Table N", an empty line, the grid and an empty line, in both
    scripts; every row of the grid is the row of the table right-padded
    with empty cells to [max_cols] cells; the grid is the line of the first
    row, the separator line of [max_cols] fields " --- " and the lines of
    the other rows; and every line of the grid has [max_cols] fields. *)
Theorem table_grid_rectangular (table_idx : nat) (t : table) :
  rows t <> [] ->
  0 < max_cols t ->
  (analyze_docx.table_block table_idx t
   = [table_header table_idx; []] ++ grid_lines (padded_rows t) ++ [[]]
   /\ extract_docx_simple.table_block table_idx t
      = [table_header table_idx; []] ++ grid_lines (padded_rows t) ++ [[]])
  /\ Forall (fun row => length row = max_cols t) (padded_rows t)
  /\ (exists headers rest,
        padded_rows t = headers :: rest
        /\ grid_lines (padded_rows t)
           = row_line headers
               :: row_line (replicate (max_cols t) (lit "---"))
               :: map row_line rest)
  /\ fields (row_line (replicate (max_cols t) (lit "---")))
     = replicate (max_cols t) (lit " --- ")
  /\ Forall (fun line => length (fields line) = max_cols t)
       (grid_lines (padded_rows t)).
Proof.
  intros Hrows Hpos.
  split; [by apply table_block_rendered|].
  split; [apply padded_rows_length|].
  pose proof (padded_rows_length t) as Hlen.
  assert (forall row, row ∈ padded_rows t ->
                      length (fields (row_line row)) = max_cols t) as Hfields.
  { intros row Hrow. by apply fields_padded_row. }
  destruct (padded_rows t) as [|headers rest] eqn:E.
  { unfold padded_rows in E. by destruct (rows t). }
  apply Forall_cons in Hlen as [Hh Hrest]. cbn [grid_lines]. rewrite Hh.
  split; [by exists headers, rest|].
  split; [by apply fields_separator|].
  repeat apply Forall_cons_2.
  - apply Hfields. left.
  - rewrite fields_separator by done. apply length_replicate.
  - apply Forall_forall. intros line Hline.
    apply list_elem_of_In, in_map_iff in Hline as (row & <- & Hrow).
    apply Hfields. right. by apply list_elem_of_In.
Qed.

Lemma table_grid_rectangular_witness :
  analyze_docx.table_block 0 ab_c_table
  = [lit "## Table 1"; []; lit "| a | b |"; lit "| --- | --- |";
     lit "| c |  |"; []]
  /\ Forall (fun line => length (fields line) = 2)
       [lit "| a | b |"; lit "| --- | --- |"; lit "| c |  |"].
Proof.
  split.
  - refine (eq_trans
              (proj1 (proj1 (table_grid_rectangular 0 ab_c_table _ _))) _).
    + discriminate.
    + vm_compute. lia.
    + reflexivity.
  - refine (proj2 (proj2 (proj2 (proj2
              (table_grid_rectangular 0 ab_c_table _ _))))).
    + discriminate.
    + vm_compute. lia.
Defined.

(** C3: the text of a cell is its joined and trimmed paragraph texts in
    which every pipe has a backslash put before it and every newline or
    carriage return is a space; so every pipe of the cell is escaped and no
    line break is left, and the line of the padded row of the cell, which
    stands in the block of the table in both scripts, splits at its
    unescaped pipes into [max_cols] fields, the cells between two spaces. *)
Theorem cell_escaping_keeps_fields (table_idx : nat) (t : table) (r : row)
  (c : cell) :
  r ∈ rows t ->
  c ∈ cells r ->
  let padded := row_data r ++ replicate (max_cols t - length (cells r)) [] in
  cell_text c = flat_map escape_char (strip (cell_join (cell_paragraphs c)))
  /\ all_pipes_escaped false (cell_text c) = true
  /\ (ch_newline ∉ cell_text c)
  /\ (ch_return ∉ cell_text c)
  /\ cell_text c ∈ padded
  /\ row_line padded ∈ analyze_docx.table_block table_idx t
  /\ row_line padded ∈ extract_docx_simple.table_block table_idx t
  /\ split_unescaped false [] (row_line padded)
     = [] :: map (fun x => ch_space :: x ++ [ch_space]) padded ++ [[]]
  /\ length (fields (row_line padded)) = max_cols t.
Proof.
  intros Hr Hc padded.
  assert (0 < max_cols t) as Hpos.
  { pose proof (cells_le_max_cols t r Hr).
    destruct (cells r); [by apply elem_of_nil in Hc|]. simpl in *. lia. }
  assert (rows t <> []) as Hrows.
  { intros E. rewrite E in Hr. by apply elem_of_nil in Hr. }
  assert (padded ∈ padded_rows t) as Hpadded.
  { apply list_elem_of_In.
    apply (in_map (fun r => row_data r
                     ++ replicate (max_cols t - length (cells r)) [])).
    by apply list_elem_of_In. }
  assert (row_line padded ∈ grid_lines (padded_rows t)) as Hline.
  { destruct (padded_rows t) as [|headers rest]; [by apply elem_of_nil in Hpadded|].
    cbn [grid_lines]. apply elem_of_cons in Hpadded as [->|Hrest]; [left|].
    right. right. apply list_elem_of_In, in_map.
    by apply list_elem_of_In. }
  destruct (table_block_rendered table_idx t Hrows Hpos) as [Ea Es].
  assert (padded <> []) as Hne.
  { apply (length_nonempty _ (max_cols t)); [|done].
    by apply padded_row_length. }
  split; [apply cell_text_escape|].
  split; [apply cell_text_safe|].
  split.
  { rewrite cell_text_escape. intros H.
    by apply escape_no_line_break in H as [? _]. }
  split.
  { rewrite cell_text_escape. intros H.
    by apply escape_no_line_break in H as [_ ?]. }
  split.
  { apply elem_of_app. left. apply list_elem_of_In, in_map.
    by apply list_elem_of_In. }
  split.
  { rewrite Ea. apply elem_of_app. right. apply elem_of_app. by left. }
  split.
  { rewrite Es. apply elem_of_app. right. apply elem_of_app. by left. }
  split.
  { apply split_row_line; [done|]. apply padded_row_safe. }
  by apply fields_padded_row.
Qed.

Lemma cell_escaping_keeps_fields_witness :
  split_unescaped false []
    (row_line [[120; 92; 124; 121; 32; 122]%N; []])
  = [[]; [32; 120; 92; 124; 121; 32; 122; 32]%N; [32; 32]%N; []]
  /\ length (fields (row_line [[120; 92; 124; 121; 32; 122]%N; []])) = 2.
Proof.
  refine (proj2 (proj2 (proj2 (proj2 (proj2 (proj2 (proj2
            (cell_escaping_keeps_fields 0 pipe_table pipe_row
               (cell_of [lit "x|y" ++ [ch_newline] ++ lit "z"]) _ _)))))))).
  - right. left.
  - left.
Defined.

(** ** The paragraphs of a cell *)

Lemma cell_join_from acc ps :
  acc <> [] ->
  fold_left
    (fun cell_text para =>
       (if truthy cell_text then cell_text ++ lit " " else cell_text)
       ++ strip (text para))
    ps acc
  = acc ++ flat_map (fun p => ch_space :: strip (text p)) ps.
Proof.
  revert acc. induction ps as [|p ps IH]; intros acc Hacc; simpl.
  - by rewrite app_nil_r.
  - destruct acc as [|a acc]; [done|]. cbn [truthy].
    rewrite IH by done.
    change (lit " ") with [ch_space]. by rewrite <- !app_assoc.
Qed.

Lemma join_cons sep q qs :
  join sep (q :: qs) = q ++ flat_map (fun x => sep ++ x) qs.
Proof.
  revert q. induction qs as [|q2 qs IH]; intros q.
  - simpl. by rewrite app_nil_r.
  - change (join sep (q :: q2 :: qs)) with (q ++ sep ++ join sep (q2 :: qs)).
    rewrite IH. cbn [flat_map]. by rewrite <- !app_assoc.
Qed.

(** The loop over the paragraphs of a cell gives the join of the trimmed
    texts without the spaces that the join puts after leading empty
    texts. *)
Lemma join_cell_join ps :
  exists k,
    join (lit " ") (map (fun p => strip (text p)) ps)
    = replicate k ch_space ++ cell_join ps.
Proof.
  induction ps as [|p ps [k IH]]; [by exists 0|].
  unfold cell_join. cbn [map fold_left truthy app].
  destruct (strip (text p)) as [|h q] eqn:E.
  - destruct ps as [|p2 ps]; [by exists 0|].
    exists (S k). cbn [map] in *.
    change (join (lit " ") ([] :: ?l)) with (lit " " ++ join (lit " ") l).
    by rewrite IH.
  - exists 0. rewrite cell_join_from by done. rewrite join_cons.
    cbn [replicate app]. f_equal. f_equal. clear.
    induction ps as [|p2 ps IH2]; [done|]. cbn [map flat_map].
    f_equal. apply IH2.
Qed.

Lemma strip_leading_spaces k s : strip (replicate k ch_space ++ s) = strip s.
Proof.
  unfold strip. f_equal. induction k as [|k IH]; [done|]. exact IH.
Qed.

(** C7, amended: the text of a cell is the trimmed texts of its paragraphs
    joined with one space between each two consecutive ones, then escaped,
    and trimmed as a whole; the spaces that the join puts next to empty
    paragraphs at the start or at the end of the cell are not in it. *)
Theorem cell_text_joins_paragraphs (c : cell) :
  cell_text c
  = strip (clean (join (lit " ")
                    (map (fun p => strip (text p)) (cell_paragraphs c))))
  /\ cell_text c
     = flat_map escape_char
         (strip (join (lit " ")
                   (map (fun p => strip (text p)) (cell_paragraphs c)))).
Proof.
  destruct (join_cell_join (cell_paragraphs c)) as [k E].
  rewrite E, clean_escape_char, strip_escape, strip_leading_spaces.
  split; apply cell_text_escape.
Qed.

(** C7 as stated fails: for the paragraphs "" and "a" the text of the cell
    is "a", not the join " a"; between "a", "" and "b" both spaces stay. *)
Lemma leading_empty_paragraph_counterexample :
  cell_text (cell_of [[]; lit "a"]) = lit "a"
  /\ join (lit " ") (map strip [[]; lit "a"]) = lit " a"
  /\ cell_text (cell_of [[]; lit "a"])
     <> join (lit " ") (map strip [[]; lit "a"])
  /\ cell_text (cell_of [lit "a"; []; lit "b"]) = lit "a  b".
Proof. repeat split. discriminate. Qed.

(** A backslash in the source text is kept as it is: a pipe that follows
    one is still given its own backslash. *)
Example backslash_before_pipe :
  cell_text (cell_of [[ch_backslash; ch_pipe]])
  = [ch_backslash; ch_backslash; ch_pipe].
Proof. reflexivity. Qed.

(** ** The blocks of the tables within the document *)

Lemma process_tables_app block table_idx ts1 ts2 md :
  process_tables block table_idx (ts1 ++ ts2) md
  = process_tables block (table_idx + length ts1) ts2
      (process_tables block table_idx ts1 md).
Proof.
  revert table_idx md. induction ts1 as [|t ts1 IH]; intros table_idx md.
  - simpl. by rewrite Nat.add_0_r.
  - simpl. rewrite IH. f_equal. lia.
Qed.

Lemma process_tables_extends block table_idx ts md :
  exists rest, process_tables block table_idx ts md = md ++ rest.
Proof.
  revert table_idx md. induction ts as [|t ts IH]; intros table_idx md.
  - exists []. simpl. by rewrite app_nil_r.
  - simpl. destruct (IH (S table_idx) (md ++ block table_idx t)) as [rest E].
    exists (block table_idx t ++ rest). by rewrite E, <- app_assoc.
Qed.

(** The block of the table at index [length pre] stands, unbroken, in the
    lines of the document. *)
Lemma table_block_in_document block pre t post md :
  exists before after,
    process_tables block 0 (pre ++ t :: post) md
    = before ++ block (length pre) t ++ after.
Proof.
  rewrite process_tables_app. simpl.
  destruct (process_tables_extends block (S (length pre)) post
              (process_tables block 0 pre md ++ block (length pre) t))
    as [rest E].
  exists (process_tables block 0 pre md), rest.
  by rewrite E, <- app_assoc.
Qed.

Lemma process_paragraphs_extends ps md :
  exists rest, process_paragraphs md ps = md ++ rest.
Proof.
  revert md. induction ps as [|p ps IH]; intros md.
  - exists []. simpl. by rewrite app_nil_r.
  - unfold process_paragraphs in *. simpl.
    destruct (IH (paragraph_step md p)) as [rest E]. rewrite E.
    unfold paragraph_step. destruct (truthy (strip (text p))).
    + eexists. by rewrite <- !app_assoc.
    + by exists rest.
Qed.

(** * Further properties of the two scripts *)

(** ** Every way a run can go *)

Lemma exact_run filename w :
  analyze_docx.extract_docx_exact filename w
  = match files w !! filename with
    | None => (None, say (not_found filename) w)
    | Some _ =>
        match Document filename w with
        | None => (None, say ProcessingError w)
        | Some doc =>
            match files w !! output_filename filename with
            | Some (Directory _) =>
                (None, say ProcessingError (say Progress w))
            | _ =>
                (None,
                 {| files :=
                      <[output_filename filename :=
                          TextFile (join [ch_newline]
                                      (analyze_docx.markdown_content doc))]>
                        (files w);
                    console := console w ++ [Progress; Progress] |})
            end
        end
    end.
Proof.
  destruct (files w !! filename) as [n|] eqn:E.
  - unfold analyze_docx.extract_docx_exact.
    assert (exists_ filename w = true) as ->
      by (apply exists_lookup; congruence).
    simpl. destruct (Document filename w) as [doc|]; [|done].
    unfold write_text, say. simpl.
    destruct (files w !! output_filename filename) as [[ | |]|];
      simpl; by rewrite <- ?app_assoc.
  - unfold analyze_docx.extract_docx_exact.
    assert (exists_ filename w = false) as ->; [|done].
    destruct (exists_ filename w) eqn:Ex; [|done].
    apply exists_lookup in Ex. done.
Qed.

Lemma simple_run filename w :
  extract_docx_simple.extract_docx_simple filename w
  = match files w !! filename with
    | None => (None, say (not_found filename) w)
    | Some _ =>
        match Document filename w with
        | None => (None, say ProcessingError w)
        | Some doc =>
            match files w !! output_filename filename with
            | Some (Directory _) =>
                (None, say ProcessingError (say Progress w))
            | _ =>
                (Some (output_filename filename),
                 {| files :=
                      <[output_filename filename :=
                          TextFile
                            (join [ch_newline]
                               (extract_docx_simple.markdown_content doc))]>
                        (files w);
                    console := console w ++ [Progress; Progress] |})
            end
        end
    end.
Proof.
  destruct (files w !! filename) as [n|] eqn:E.
  - unfold extract_docx_simple.extract_docx_simple.
    assert (exists_ filename w = true) as ->
      by (apply exists_lookup; congruence).
    simpl. destruct (Document filename w) as [doc|]; [|done].
    unfold write_text, say. simpl.
    destruct (files w !! output_filename filename) as [[ | |]|];
      simpl; by rewrite <- ?app_assoc.
  - unfold extract_docx_simple.extract_docx_simple.
    assert (exists_ filename w = false) as ->; [|done].
    destruct (exists_ filename w) eqn:Ex; [|done].
    apply exists_lookup in Ex. done.
Qed.


Lemma Document_files filename w1 w2 :
  files w1 !! filename = files w2 !! filename ->
  Document filename w1 = Document filename w2.
Proof. intros E. unfold Document. by rewrite E. Qed.




(** X1: when the input exists but python-docx cannot open it (a text
    file, or a directory that holds no package), both scripts report the
    error, return [None] and leave every file as it was. *)
Theorem unreadable_input_no_output (filename : str) (w : world) (n : node) :
  files w !! filename = Some n ->
  (forall doc, n <> DocxFile doc) ->
  (forall doc, n <> Directory (Some doc)) ->
  analyze_docx.extract_docx_exact filename w = (None, say ProcessingError w)
  /\ extract_docx_simple.extract_docx_simple filename w
     = (None, say ProcessingError w)
  /\ files (say ProcessingError w) = files w.
Proof.
  intros E Hfile Hdir. rewrite exact_run, simple_run, E.
  assert (Document filename w = None) as ->; [|done].
  unfold Document. rewrite E.
  destruct n as [doc| |[doc|]]; try done.
  - by destruct (Hfile doc).
  - by destruct (Hdir doc).
Qed.

Lemma unreadable_input_no_output_witness :
  extract_docx_simple.extract_docx_simple (lit "notes.md")
    {| files := {[ lit "notes.md" := TextFile (lit "# x") ]};
       console := [] |}
  = (None,
     say ProcessingError
       {| files := {[ lit "notes.md" := TextFile (lit "# x") ]};
          console := [] |}).
Proof.
  refine (proj1 (proj2 (unreadable_input_no_output (lit "notes.md") _
                          (TextFile (lit "# x")) _ _ _))).
  - apply lookup_singleton_eq.
  - discriminate.
  - discriminate.
Defined.

(** X2: when the document is read but the output path is a directory, the
    write fails inside the [try] block: both scripts report the error after
    the progress output, return [None] and leave every file as it was. *)
Theorem unwritable_output_no_change (filename : str) (w : world)
  (doc : document) (package : option document) :
  files w !! filename = Some (DocxFile doc) ->
  files w !! output_filename filename = Some (Directory package) ->
  analyze_docx.extract_docx_exact filename w
  = (None, say ProcessingError (say Progress w))
  /\ extract_docx_simple.extract_docx_simple filename w
     = (None, say ProcessingError (say Progress w))
  /\ files (say ProcessingError (say Progress w)) = files w.
Proof.
  intros E Eout. rewrite exact_run, simple_run. unfold Document.
  by rewrite E, Eout.
Qed.

Lemma unwritable_output_no_change_witness :
  (extract_docx_simple.extract_docx_simple (lit "r.docx")
     {| files := <[ lit "r_exact_extraction.md" := Directory None ]>
                   {[ lit "r.docx" := DocxFile report_doc ]};
        console := [] |}).1
  = None.
Proof.
  refine (f_equal fst (proj1 (proj2
            (unwritable_output_no_change (lit "r.docx") _ report_doc None
               _ _)))).
  - simpl. rewrite lookup_insert_ne; [apply lookup_singleton_eq|].
    discriminate.
  - change (output_filename (lit "r.docx"))
      with (lit "r_exact_extraction.md").
    apply lookup_insert_eq.
Defined.

(** X3: [extract_docx_simple] returns the output name exactly when it has
    written the file: with [None] no file has changed; with a name, the
    name is the output name, the input is a document and the only change
    is that this path now holds the Markdown text of the document, whatever
    it held before. *)
Theorem simple_result_tells (filename : str) (w : world) :
  ((extract_docx_simple.extract_docx_simple filename w).1 = None ->
   files (extract_docx_simple.extract_docx_simple filename w).2 = files w)
  /\ (forall out,
        (extract_docx_simple.extract_docx_simple filename w).1 = Some out ->
        out = output_filename filename
        /\ exists doc,
             Document filename w = Some doc
             /\ files (extract_docx_simple.extract_docx_simple filename w).2
                = <[out := TextFile
                             (join [ch_newline]
                                (extract_docx_simple.markdown_content doc))]>
                    (files w)).
Proof.
  rewrite simple_run.
  destruct (files w !! filename) as [n|] eqn:E; [|split; done].
  destruct (Document filename w) as [doc|]; [|split; done].
  destruct (files w !! output_filename filename) as [[ | |]|];
    (split; [done|]); intros out Hout; simpl in Hout;
    try discriminate; injection Hout as <-; (split; [done|]);
    by exists doc.
Qed.

Lemma simple_result_tells_witness :
  files (extract_docx_simple.extract_docx_simple (lit "gone.docx")
           {| files := ∅; console := [] |}).2
  = ∅.
Proof.
  refine (proj1 (simple_result_tells (lit "gone.docx")
                   {| files := ∅; console := [] |}) _).
  reflexivity.
Defined.

(** ** What a run changes *)

Lemma exact_files filename w :
  files (analyze_docx.extract_docx_exact filename w).2 = files w
  \/ exists doc,
       Document filename w = Some doc
       /\ files (analyze_docx.extract_docx_exact filename w).2
          = <[output_filename filename :=
                TextFile (join [ch_newline]
                            (analyze_docx.markdown_content doc))]>
              (files w).
Proof.
  rewrite exact_run.
  destruct (files w !! filename) as [n|] eqn:E; [|by left].
  destruct (Document filename w) as [doc|]; [|by left].
  destruct (files w !! output_filename filename) as [[ | |]|];
    try (by left); right; by exists doc.
Qed.

Lemma simple_files filename w :
  files (extract_docx_simple.extract_docx_simple filename w).2 = files w
  \/ exists doc,
       Document filename w = Some doc
       /\ files (extract_docx_simple.extract_docx_simple filename w).2
          = <[output_filename filename :=
                TextFile (join [ch_newline]
                            (extract_docx_simple.markdown_content doc))]>
              (files w).
Proof.
  rewrite simple_run.
  destruct (files w !! filename) as [n|] eqn:E; [|by left].
  destruct (Document filename w) as [doc|]; [|by left].
  destruct (files w !! output_filename filename) as [[ | |]|];
    try (by left); right; by exists doc.
Qed.

(** X4: a run touches no path but the output path: every other path holds
    after the run what it held before, in both scripts and on every way
    the run can go. *)
Theorem run_changes_only_output (filename path : str) (w : world) :
  path <> output_filename filename ->
  files (analyze_docx.extract_docx_exact filename w).2 !! path
  = files w !! path
  /\ files (extract_docx_simple.extract_docx_simple filename w).2 !! path
     = files w !! path.
Proof.
  intros Hne. split.
  - destruct (exact_files filename w) as [->|(doc & _ & ->)]; [done|].
    by rewrite lookup_insert_ne.
  - destruct (simple_files filename w) as [->|(doc & _ & ->)]; [done|].
    by rewrite lookup_insert_ne.
Qed.

Lemma run_changes_only_output_witness :
  files (extract_docx_simple.extract_docx_simple (lit "r.docx")
           (one_file (lit "r.docx") report_doc)).2 !! lit "r.docx"
  = files (one_file (lit "r.docx") report_doc) !! lit "r.docx".
Proof.
  refine (proj2 (run_changes_only_output (lit "r.docx") (lit "r.docx")
                   (one_file (lit "r.docx") report_doc) _)).
  vm_compute. discriminate.
Defined.

Lemma exact_files_ext filename w1 w2 :
  files w1 = files w2 ->
  files (analyze_docx.extract_docx_exact filename w1).2
  = files (analyze_docx.extract_docx_exact filename w2).2.
Proof.
  intros E. rewrite !exact_run.
  rewrite (Document_files filename w1 w2) by (by rewrite E). rewrite E.
  destruct (files w2 !! filename) as [n|]; [|done].
  destruct (Document filename w2) as [doc|]; [|done].
  destruct (files w2 !! output_filename filename) as [[ | |]|];
    simpl; by rewrite ?E.
Qed.

Lemma simple_files_ext filename w1 w2 :
  files w1 = files w2 ->
  files (extract_docx_simple.extract_docx_simple filename w1).2
  = files (extract_docx_simple.extract_docx_simple filename w2).2.
Proof.
  intros E. rewrite !simple_run.
  rewrite (Document_files filename w1 w2) by (by rewrite E). rewrite E.
  destruct (files w2 !! filename) as [n|]; [|done].
  destruct (Document filename w2) as [doc|]; [|done].
  destruct (files w2 !! output_filename filename) as [[ | |]|];
    simpl; by rewrite ?E.
Qed.

Lemma Document_after_write filename out data w doc doc2 :
  Document filename w = Some doc ->
  Document filename
    {| files := <[out := TextFile data]> (files w); console := console w |}
  = Some doc2 ->
  out <> filename /\ doc2 = doc.
Proof.
  intros H H2. unfold Document in H2. simpl in H2.
  destruct (decide (out = filename)) as [->|Hne].
  - by rewrite lookup_insert_eq in H2.
  - rewrite lookup_insert_ne in H2 by done.
    unfold Document in H. rewrite H in H2. by injection H2 as <-.
Qed.

(** X5: running a script a second time on the same name changes no file:
    the files after two runs are the files after one run, whether the
    first run wrote the output, failed, or replaced its own input. *)
Theorem second_run_changes_nothing (filename : str) (w : world) :
  files (analyze_docx.extract_docx_exact filename
           (analyze_docx.extract_docx_exact filename w).2).2
  = files (analyze_docx.extract_docx_exact filename w).2
  /\ files (extract_docx_simple.extract_docx_simple filename
              (extract_docx_simple.extract_docx_simple filename w).2).2
     = files (extract_docx_simple.extract_docx_simple filename w).2.
Proof.
  split.
  - destruct (exact_files filename w) as [E|(doc & Hin & E)].
    { rewrite (exact_files_ext filename _ w E). by rewrite E. }
    destruct (exact_files filename
                (analyze_docx.extract_docx_exact filename w).2)
      as [E2|(doc2 & Hin2 & E2)]; [done|].
    rewrite E2, E.
    rewrite (Document_files _ _
               {| files := <[output_filename filename :=
                               TextFile (join [ch_newline]
                                  (analyze_docx.markdown_content doc))]>
                             (files w);
                  console := console w |}) in Hin2 by (by rewrite E).
    destruct (Document_after_write _ _ _ _ _ _ Hin Hin2) as [_ ->].
    apply insert_insert_eq.
  - destruct (simple_files filename w) as [E|(doc & Hin & E)].
    { rewrite (simple_files_ext filename _ w E). by rewrite E. }
    destruct (simple_files filename
                (extract_docx_simple.extract_docx_simple filename w).2)
      as [E2|(doc2 & Hin2 & E2)]; [done|].
    rewrite E2, E.
    rewrite (Document_files _ _
               {| files := <[output_filename filename :=
                               TextFile (join [ch_newline]
                                  (extract_docx_simple.markdown_content
                                     doc))]>
                             (files w);
                  console := console w |}) in Hin2 by (by rewrite E).
    destruct (Document_after_write _ _ _ _ _ _ Hin Hin2) as [_ ->].
    apply insert_insert_eq.
Qed.



(** ** More on the output file name *)

Lemma replace_from_skip old new x s :
  replace_from old new (length x) (x ++ s) = replace_from old new 0 s.
Proof. induction x as [|c x IH]; [done|]. exact IH. Qed.

Lemma startswith_drop old s :
  startswith old s = true -> s = old ++ drop (length old) s.
Proof.
  revert s. induction old as [|a old IH]; intros s H; [done|].
  destruct s as [|b s]; [done|]. simpl in H.
  apply andb_prop in H as [Hab H]. apply N.eqb_eq in Hab as ->.
  simpl. f_equal. by apply IH.
Qed.

Lemma startswith_app_l old x y :
  startswith old x = true -> startswith old (x ++ y) = true.
Proof.
  revert x. induction old as [|a old IH]; intros x H; [done|].
  destruct x as [|b x]; [done|]. simpl in *.
  apply andb_prop in H as [-> H]. simpl. by apply IH.
Qed.

Lemma replace_from_match old new s :
  old <> [] ->
  startswith old s = true ->
  replace_from old new 0 s
  = new ++ replace_from old new 0 (drop (length old) s).
Proof.
  intros Hold H. pose proof (startswith_drop old s H) as E.
  destruct old as [|a old]; [done|].
  destruct s as [|c s]; [done|].
  cbn [replace_from]. rewrite H. f_equal.
  simpl in E. injection E as _ E.
  cbn [length Nat.sub drop]. rewrite Nat.sub_0_r.
  rewrite E at 1. apply replace_from_skip.
Qed.

Lemma replace_from_no_match old new c s :
  startswith old (c :: s) = false ->
  replace_from old new 0 (c :: s) = c :: replace_from old new 0 s.
Proof. intros H. cbn [replace_from]. by rewrite H. Qed.

(** Without an occurrence of [old], [replace] gives the string back. *)
Lemma replace_absent old new s :
  old <> [] -> contains old s = false -> replace old new s = s.
Proof.
  intros Hold. destruct old as [|a old]; [done|]. unfold replace.
  induction s as [|c s IH]; intros H; [done|].
  cbn [contains] in H. apply orb_false_elim in H as [Hhere Hrest].
  rewrite replace_from_no_match by done. f_equal. by apply IH.
Qed.

Lemma startswith_docx_underscore x y :
  startswith (lit ".docx") (x ++ 95%N :: y) = true ->
  startswith (lit ".docx") x = true.
Proof.
  rewrite lit_docx. intros H.
  destruct x as [|c0 [|c1 [|c2 [|c3 [|c4 x]]]]]; simpl in *;
    repeat match goal with
           | H : (_ && _) = true |- _ => apply andb_prop in H as [? H]
           end;
    try discriminate.
  repeat (apply andb_true_intro; split); done.
Qed.

(** An occurrence of ".docx" that starts before the replaced text was
    already there before the replacement. *)
Lemma startswith_docx_replaced s :
  forall x,
    startswith (lit ".docx")
      (x ++ replace_from (lit ".docx") (lit "_exact_extraction.md") 0 s)
    = true ->
    startswith (lit ".docx") (x ++ s) = true.
Proof.
  induction s as [|c s IH]; intros x H; [done|].
  destruct (startswith (lit ".docx") (c :: s)) eqn:E.
  - rewrite replace_from_match in H by done.
    apply startswith_app_l.
    change (lit "_exact_extraction.md" ++ ?r)
      with (95%N :: (lit "exact_extraction.md" ++ r)) in H.
    by apply startswith_docx_underscore in H.
  - rewrite replace_from_no_match in H by done.
    specialize (IH (x ++ [c])). rewrite <- !app_assoc in IH. by apply IH.
Qed.

Lemma contains_docx_new y :
  contains (lit ".docx") (lit "_exact_extraction.md" ++ y)
  = contains (lit ".docx") y.
Proof. rewrite lit_docx. reflexivity. Qed.

Lemma output_filename_no_docx_upto n :
  forall s, length s <= n ->
    contains (lit ".docx")
      (replace_from (lit ".docx") (lit "_exact_extraction.md") 0 s)
    = false.
Proof.
  induction n as [|n IH]; intros s Hlen.
  { destruct s; [done|]. simpl in Hlen. lia. }
  destruct s as [|c s]; [done|].
  destruct (startswith (lit ".docx") (c :: s)) eqn:E.
  - rewrite replace_from_match by done. rewrite contains_docx_new.
    apply IH. rewrite length_drop. simpl in *. lia.
  - rewrite replace_from_no_match by done. cbn [contains].
    apply orb_false_intro.
    + destruct (startswith (lit ".docx")
                  (c :: replace_from (lit ".docx")
                          (lit "_exact_extraction.md") 0 s)) eqn:E2; [|done].
      apply (startswith_docx_replaced s [c]) in E2. cbn [app] in E2.
      congruence.
    + apply IH. simpl in Hlen. lia.
Qed.

(** X6: the output name never contains ".docx"; so deriving the output
    name of an output name changes nothing, and the output name is the
    input name exactly when the input name has no ".docx" in it. *)
Theorem output_filename_no_docx (filename : str) :
  contains (lit ".docx") (output_filename filename) = false
  /\ output_filename (output_filename filename) = output_filename filename
  /\ (output_filename filename = filename
      <-> contains (lit ".docx") filename = false).
Proof.
  assert (contains (lit ".docx") (output_filename filename) = false) as Hno.
  { unfold output_filename, replace. rewrite lit_docx at 1.
    rewrite <- lit_docx.
    by apply (output_filename_no_docx_upto (length filename)). }
  split; [done|]. split.
  - unfold output_filename at 1. by apply replace_absent.
  - split.
    + intros E. by rewrite <- E.
    + intros H. by apply replace_absent.
Qed.

(** X7: when the name of the input has no ".docx" in it (another case of
    the letters, another extension, none), the output path is the input
    path: a run on a document replaces the document by its Markdown text,
    and [extract_docx_simple] returns the name of the input. *)
Theorem input_without_docx_overwritten (filename : str) (w : world)
  (doc : document) :
  contains (lit ".docx") filename = false ->
  files w !! filename = Some (DocxFile doc) ->
  output_filename filename = filename
  /\ files (analyze_docx.extract_docx_exact filename w).2 !! filename
     = Some (TextFile (join [ch_newline]
                         (analyze_docx.markdown_content doc)))
  /\ extract_docx_simple.extract_docx_simple filename w
     = (Some filename,
        {| files :=
             <[filename :=
                 TextFile (join [ch_newline]
                             (extract_docx_simple.markdown_content doc))]>
               (files w);
           console := console w ++ [Progress; Progress] |}).
Proof.
  intros Hno Hin.
  assert (output_filename filename = filename) as E
    by (by apply replace_absent).
  split; [done|].
  rewrite exact_run, simple_run, E. unfold Document. rewrite Hin. simpl.
  by rewrite lookup_insert_eq.
Qed.

Lemma input_without_docx_overwritten_witness :
  files (analyze_docx.extract_docx_exact (lit "Report.DOCX")
           (one_file (lit "Report.DOCX") report_doc)).2
    !! lit "Report.DOCX"
  = Some (TextFile report_output).
Proof.
  refine (proj1 (proj2 (input_without_docx_overwritten (lit "Report.DOCX")
                          (one_file (lit "Report.DOCX") report_doc)
                          report_doc _ _))).
  - reflexivity.
  - apply lookup_singleton_eq.
Defined.

(** ** The structure of the lines of a document *)

Lemma paragraph_step_lines md p :
  paragraph_step md p = md ++ paragraph_lines p.
Proof.
  unfold paragraph_step, paragraph_lines.
  destruct (truthy (strip (text p))).
  - by rewrite <- app_assoc.
  - by rewrite app_nil_r.
Qed.

Lemma process_paragraphs_flat ps :
  forall md, process_paragraphs md ps = md ++ flat_map paragraph_lines ps.
Proof.
  unfold process_paragraphs.
  induction ps as [|p ps IH]; intros md; simpl.
  - by rewrite app_nil_r.
  - by rewrite IH, paragraph_step_lines, <- app_assoc.
Qed.

Lemma process_tables_imap block ts :
  forall table_idx md,
    process_tables block table_idx ts md
    = md ++ concat (imap (fun j t => block (table_idx + j) t) ts).
Proof.
  induction ts as [|t ts IH]; intros table_idx md; simpl.
  - by rewrite app_nil_r.
  - rewrite IH, <- app_assoc, Nat.add_0_r. do 3 f_equal.
    apply imap_ext. intros j x _. simpl. f_equal. lia.
Qed.

Lemma table_block_same table_idx t :
  extract_docx_simple.table_block table_idx t
  = analyze_docx.table_block table_idx t.
Proof. by rewrite analyze_table_block, simple_table_block. Qed.

(** X8: the lines of a document are the lines of its paragraphs in order
    and, when there is a table, the rule "---", an empty line, the section
    title, an empty line and the blocks of the tables in order, the block
    at index i being that of "## Table i+1".  The two scripts render every
    table alike and differ in the section title only; without tables they
    give the same lines. *)
Theorem document_structure (doc : document) (ps : list paragraph) :
  analyze_docx.markdown_content doc
  = document_lines (lit "# TABLES SECTION") analyze_docx.table_block doc
  /\ extract_docx_simple.markdown_content doc
     = document_lines (lit "# DOCUMENT TABLES") analyze_docx.table_block doc
  /\ (forall table_idx t,
        extract_docx_simple.table_block table_idx t
        = analyze_docx.table_block table_idx t)
  /\ analyze_docx.markdown_content {| paragraphs := ps; tables := [] |}
     = extract_docx_simple.markdown_content
         {| paragraphs := ps; tables := [] |}.
Proof.
  split; [|split; [|split; [apply table_block_same|reflexivity]]].
  - unfold analyze_docx.markdown_content, document_lines.
    rewrite process_paragraphs_flat. cbn [app].
    destruct (tables doc) as [|t ts]; [cbn [truthy]; by rewrite app_nil_r|].
    cbn [truthy]. rewrite process_tables_imap. by rewrite <- app_assoc.
  - unfold extract_docx_simple.markdown_content, document_lines.
    rewrite process_paragraphs_flat. cbn [app].
    destruct (tables doc) as [|t ts]; [cbn [truthy]; by rewrite app_nil_r|].
    cbn [truthy]. rewrite process_tables_imap.
    assert (imap (fun j t => extract_docx_simple.table_block (0 + j) t)
              (t :: ts)
            = imap analyze_docx.table_block (t :: ts)) as ->
      by (apply imap_ext; intros j x _; apply table_block_same).
    by rewrite <- app_assoc.
Qed.

(** X9: the paragraph loop only appends to the lines it is given, the
    lines of each paragraph in the order of the paragraphs; it adds two
    lines for every paragraph that is not blank, so twice their number in
    all. *)
Theorem paragraph_lines_count (md : list str) (ps : list paragraph) :
  process_paragraphs md ps = md ++ flat_map paragraph_lines ps
  /\ length (process_paragraphs md ps)
     = length md + 2 * length (List.filter (fun p => negb (blank p)) ps).
Proof.
  split; [apply process_paragraphs_flat|].
  rewrite process_paragraphs_flat, length_app. f_equal.
  induction ps as [|p ps IH]; [done|].
  cbn [flat_map List.filter]. rewrite length_app, IH.
  unfold paragraph_lines, blank.
  destruct (truthy (strip (text p))); simpl; lia.
Qed.

Lemma grid_lines_length t :
  rows t <> [] -> length (grid_lines (padded_rows t)) = S (length (rows t)).
Proof.
  unfold padded_rows. destruct (rows t) as [|r rs]; [done|]. intros _.
  simpl. by rewrite !length_map.
Qed.

(** X10: the block of a table has three lines when the table has no row or
    no cell, and otherwise four lines more than the table has rows: the
    header, an empty line, one line per row, the separator and an empty
    line.  No row is dropped, whatever its number of cells. *)
Theorem table_block_length (table_idx : nat) (t : table) :
  length (analyze_docx.table_block table_idx t)
  = (if truthy (rows t) && (0 <? max_cols t)
     then length (rows t) + 4 else 3)
  /\ length (extract_docx_simple.table_block table_idx t)
     = (if truthy (rows t) && (0 <? max_cols t)
        then length (rows t) + 4 else 3).
Proof.
  rewrite table_block_same, analyze_table_block.
  assert (length
            ([table_header table_idx; []]
             ++ (if truthy (rows t) && (0 <? max_cols t)
                 then grid_lines (padded_rows t) else [])
             ++ [[]])
          = (if truthy (rows t) && (0 <? max_cols t)
             then length (rows t) + 4 else 3)) as E; [|done].
  destruct (truthy (rows t)) eqn:Er; [|done].
  destruct (0 <? max_cols t); [|done].
  cbn [andb]. rewrite !length_app, grid_lines_length.
  - simpl. lia.
  - by apply truthy_true.
Qed.

(** ** Trimmed texts *)

Lemma lstrip_head s h t : lstrip s = h :: t -> is_space h = false.
Proof.
  induction s as [|c s IH]; [done|]. simpl.
  destruct (is_space c) eqn:E; [done|]. by intros [= <- _].
Qed.

Lemma lstrip_suffix s : exists pre, s = pre ++ lstrip s.
Proof.
  induction s as [|c s [pre IH]]; [by exists []|]. simpl.
  destruct (is_space c).
  - exists (c :: pre). simpl. by rewrite <- IH.
  - by exists [].
Qed.

Lemma rstrip_prefix y : exists w, y = rstrip y ++ w.
Proof.
  unfold rstrip. destruct (lstrip_suffix (rev y)) as [pre E].
  exists (rev pre). rewrite <- rev_app_distr, <- E. by rewrite rev_involutive.
Qed.

Lemma strip_head x h t : strip x = h :: t -> is_space h = false.
Proof.
  unfold strip. intros E.
  destruct (rstrip_prefix (lstrip x)) as [w Ew]. rewrite E in Ew.
  by apply (lstrip_head x h (t ++ w)).
Qed.

Lemma strip_last x u z : strip x = u ++ [z] -> is_space z = false.
Proof.
  unfold strip, rstrip. intros E.
  apply (f_equal (@rev char)) in E.
  rewrite rev_involutive, rev_app_distr in E. simpl in E.
  by apply lstrip_head in E.
Qed.

Lemma lstrip_nonspace h t : is_space h = false -> lstrip (h :: t) = h :: t.
Proof. intros E. simpl. by rewrite E. Qed.

(** A trimmed text between two spaces trims back to itself. *)
Lemma strip_between_spaces x :
  strip (ch_space :: strip x ++ [ch_space]) = strip x.
Proof.
  destruct (strip x) as [|h t] eqn:E; [done|].
  pose proof (strip_head x h t E) as Hh.
  assert (exists u z, h :: t = u ++ [z]) as (u & z & Eu).
  { destruct (rev (h :: t)) as [|z ru] eqn:Er.
    - apply (f_equal (@rev char)) in Er. by rewrite rev_involutive in Er.
    - exists (rev ru), z. apply (f_equal (@rev char)) in Er.
      by rewrite rev_involutive in Er. }
  assert (is_space z = false) as Hz.
  { apply (strip_last x u z). by rewrite E. }
  unfold strip at 1.
  change (lstrip (ch_space :: (h :: t) ++ [ch_space]))
    with (lstrip ((h :: t) ++ [ch_space])).
  cbn [app]. rewrite lstrip_nonspace by done.
  unfold rstrip.
  change (h :: t ++ [ch_space]) with ((h :: t) ++ [ch_space]).
  rewrite Eu, rev_app_distr. cbn [rev app lstrip].
  change (is_space ch_space) with true. cbn iota.
  rewrite rev_app_distr. cbn [rev app].
  rewrite lstrip_nonspace by done.
  change (z :: rev u) with ([z] ++ rev u).
  by rewrite rev_app_distr, rev_involutive.
Qed.

(** X11: the text of a cell neither starts nor ends with a blank
    character. *)
Theorem cell_text_trimmed (c : cell) (h z : char) (t u : str) :
  cell_text c = h :: t ->
  cell_text c = u ++ [z] ->
  is_space h = false /\ is_space z = false.
Proof.
  unfold cell_text. intros Eh Ez. split.
  - by eapply strip_head.
  - by eapply strip_last.
Qed.

Lemma cell_text_trimmed_witness :
  is_space 120%N = false /\ is_space 121%N = false.
Proof.
  refine (cell_text_trimmed (cell_of [lit "  x"; lit "y  "])
            120%N 121%N [ch_space; 121%N] [120%N; ch_space] _ _);
    reflexivity.
Defined.

Lemma padded_row_cells_trimmed t row c :
  row ∈ padded_rows t -> c ∈ row -> exists x, c = strip x.
Proof.
  intros Hrow Hc.
  apply list_elem_of_In, in_map_iff in Hrow as (r & <- & _).
  apply elem_of_app in Hc as [Hc|Hc].
  - unfold row_data in Hc.
    apply list_elem_of_In, in_map_iff in Hc as (x & <- & _).
    by eexists.
  - apply elem_of_replicate_inv in Hc as ->. by exists [].
Qed.

(** X12: a grid row can be read back: splitting its line at the unescaped
    pipes and trimming every field gives the cells of the padded row, as
    they were put into the line. *)
Theorem grid_row_round_trip (t : table) (row : list str) :
  0 < max_cols t ->
  row ∈ padded_rows t ->
  map strip (fields (row_line row)) = row.
Proof.
  intros Hpos Hrow.
  destruct (fields_padded_row t row Hpos Hrow) as [-> _].
  rewrite map_map.
  assert (forall c, c ∈ row -> exists x, c = strip x) as Hcells
    by (intros c; by apply (padded_row_cells_trimmed t)).
  clear Hrow. induction row as [|c row IH]; [done|].
  cbn [map]. f_equal.
  - destruct (Hcells c) as [x ->]; [left|].
    apply strip_between_spaces.
  - apply IH. intros c' Hc'. apply Hcells. by right.
Qed.

Lemma grid_row_round_trip_witness :
  map strip (fields (row_line [[120; 92; 124; 121; 32; 122]%N; []]))
  = [[120; 92; 124; 121; 32; 122]%N; []].
Proof.
  refine (grid_row_round_trip pipe_table _ _ _).
  - vm_compute. lia.
  - right. left.
Defined.

(** ** Blank cells *)

Lemma lstrip_nil_blank s : lstrip s = [] -> forallb is_space s = true.
Proof.
  induction s as [|c s IH]; [done|]. simpl.
  destruct (is_space c); [exact IH|done].
Qed.

Lemma strip_nil_blank s : strip s = [] -> forallb is_space s = true.
Proof.
  unfold strip, rstrip. intros E.
  apply lstrip_nil_blank.
  destruct (lstrip s) as [|h t] eqn:El; [done|].
  apply (f_equal (@rev char)) in E. rewrite rev_involutive in E.
  cbn [rev] in E. apply lstrip_nil_blank in E.
  rewrite forallb_app in E. apply andb_prop in E as [_ E].
  simpl in E. rewrite (lstrip_head s h t El) in E. done.
Qed.

Lemma escape_nil s : flat_map escape_char s = [] -> s = [].
Proof.
  destruct s as [|c s]; [done|]. cbn [flat_map]. unfold escape_char.
  destruct (c =? ch_pipe)%N; [done|].
  destruct (c =? ch_newline)%N; [done|].
  by destruct (c =? ch_return)%N.
Qed.

Lemma cell_join_blank ps :
  Forall (fun p => strip (text p) = []) ps -> cell_join ps = [].
Proof.
  unfold cell_join. induction 1 as [|p ps Hp _ IH]; [done|].
  simpl. by rewrite Hp.
Qed.

Lemma cell_join_not_blank ps :
  forallb is_space (cell_join ps) = true ->
  Forall (fun p => strip (text p) = []) ps.
Proof.
  unfold cell_join. induction ps as [|p ps IH]; intros H; [done|].
  cbn [fold_left truthy app] in H.
  destruct (strip (text p)) as [|h q] eqn:E.
  - constructor; [done|]. by apply IH.
  - rewrite cell_join_from in H by done. simpl in H.
    by rewrite (strip_head (text p) h q E) in H.
Qed.

(** X13: the text of a cell is empty exactly when every paragraph of the
    cell is blank; a cell without paragraph is one such. *)
Theorem cell_text_empty_iff_blank (c : cell) :
  cell_text c = []
  <-> Forall (fun p => strip (text p) = []) (cell_paragraphs c).
Proof.
  rewrite cell_text_escape. split.
  - intros E. apply escape_nil, strip_nil_blank in E.
    by apply cell_join_not_blank.
  - intros H. by rewrite cell_join_blank.
Qed.

(** ** Line breaks in the grid *)

Lemma elem_of_join x sep parts :
  x ∈ join sep parts -> x ∈ sep \/ exists c, c ∈ parts /\ x ∈ c.
Proof.
  induction parts as [|p parts IH]; [by intros H%elem_of_nil|].
  destruct parts as [|p2 parts].
  - intros H. right. exists p. split; [left|done].
  - change (join sep (p :: p2 :: parts))
      with (p ++ sep ++ join sep (p2 :: parts)).
    rewrite !elem_of_app. intros [H|[H|H]].
    + right. exists p. split; [left|done].
    + by left.
    + destruct (IH H) as [?|(c & Hc & Hx)]; [by left|].
      right. exists c. split; [by right|done].
Qed.

Lemma elem_of_row_line x row :
  x ∈ row_line row ->
  x = ch_pipe \/ x = ch_space \/ exists c, c ∈ row /\ x ∈ c.
Proof.
  unfold row_line. rewrite !elem_of_app. intros [H|[H|H]].
  - change (lit "| ") with [ch_pipe; ch_space] in H.
    apply elem_of_cons in H as [->|H]; [by left|].
    apply list_elem_of_singleton in H as ->. right. by left.
  - apply elem_of_join in H as [H|H]; [|by right; right].
    change (lit " | ") with [ch_space; ch_pipe; ch_space] in H.
    apply elem_of_cons in H as [->|H]; [right; by left|].
    apply elem_of_cons in H as [->|H]; [by left|].
    apply list_elem_of_singleton in H as ->. right. by left.
  - change (lit " |") with [ch_space; ch_pipe] in H.
    apply elem_of_cons in H as [->|H]; [right; by left|].
    apply list_elem_of_singleton in H as ->. by left.
Qed.

Lemma padded_row_no_line_break t row c x :
  row ∈ padded_rows t -> c ∈ row -> x ∈ c ->
  x <> ch_newline /\ x <> ch_return.
Proof.
  intros Hrow Hc Hx.
  apply list_elem_of_In, in_map_iff in Hrow as (r & <- & _).
  apply elem_of_app in Hc as [Hc|Hc].
  - unfold row_data in Hc.
    apply list_elem_of_In, in_map_iff in Hc as (cl & <- & _).
    rewrite cell_text_escape in Hx. by apply escape_no_line_break in Hx.
  - apply elem_of_replicate_inv in Hc as ->. by apply elem_of_nil in Hx.
Qed.

(** X14: no line of the grid of a table holds a newline or a carriage
    return, whatever the texts of the cells: in the written text every row
    of the table, and the separator, is one line. *)
Theorem grid_lines_no_line_break (t : table) (line : str) :
  line ∈ grid_lines (padded_rows t) ->
  (ch_newline ∉ line) /\ (ch_return ∉ line).
Proof.
  intros Hline.
  assert (forall x, x ∈ line -> x <> ch_newline /\ x <> ch_return) as H.
  { intros x Hx.
    destruct (padded_rows t) as [|headers rest] eqn:E;
      [by apply elem_of_nil in Hline|].
    assert (forall row, row ∈ headers :: rest -> x ∈ row_line row ->
                        x <> ch_newline /\ x <> ch_return) as Hrow.
    { intros row Hrow Hxr.
      apply elem_of_row_line in Hxr as [->|[->|(c & Hc & Hxc)]];
        [done|done|].
      apply (padded_row_no_line_break t row c); [by rewrite E|done..]. }
    cbn [grid_lines] in Hline.
    apply elem_of_cons in Hline as [->|Hline];
      [apply (Hrow headers); [left|done]|].
    apply elem_of_cons in Hline as [->|Hline].
    - apply elem_of_row_line in Hx as [->|[->|(c & Hc & Hxc)]];
        [done|done|].
      apply elem_of_replicate_inv in Hc as ->.
      change (lit "---") with [45; 45; 45]%N in Hxc.
      apply elem_of_cons in Hxc as [->|Hxc]; [done|].
      apply elem_of_cons in Hxc as [->|Hxc]; [done|].
      by apply list_elem_of_singleton in Hxc as ->.
    - apply list_elem_of_In, in_map_iff in Hline as (row & <- & Hin).
      apply (Hrow row); [|done]. right. by apply list_elem_of_In. }
  split; intros Hx; by destruct (H _ Hx).
Qed.

Lemma grid_lines_no_line_break_witness :
  (ch_newline ∉ row_line [[120; 92; 124; 121; 32; 122]%N; []])
  /\ (ch_return ∉ row_line [[120; 92; 124; 121; 32; 122]%N; []]).
Proof.
  refine (grid_lines_no_line_break pipe_table _ _).
  right. right. left.
Defined.

(** ** Empty documents and the end of the text *)

Lemma flat_map_paragraph_lines_blank ps :
  Forall (fun p => strip (text p) = []) ps ->
  flat_map paragraph_lines ps = [].
Proof.
  induction 1 as [|p ps Hp _ IH]; [done|].
  cbn [flat_map]. unfold paragraph_lines at 1. by rewrite Hp.
Qed.

(** X15: a document in which every paragraph is blank and which has no
    table gives no line at all; the output file is written all the same,
    and it is empty. *)
Theorem blank_document_empty_file (filename : str) (w : world)
  (doc : document) :
  Forall (fun p => strip (text p) = []) (paragraphs doc) ->
  tables doc = [] ->
  files w !! filename = Some (DocxFile doc) ->
  (forall package,
     files w !! output_filename filename <> Some (Directory package)) ->
  analyze_docx.markdown_content doc = []
  /\ extract_docx_simple.markdown_content doc = []
  /\ files (analyze_docx.extract_docx_exact filename w).2
       !! output_filename filename
     = Some (TextFile [])
  /\ files (extract_docx_simple.extract_docx_simple filename w).2
       !! output_filename filename
     = Some (TextFile []).
Proof.
  intros Hblank Hnt Hin Hout.
  assert (analyze_docx.markdown_content doc = []) as Ea.
  { unfold analyze_docx.markdown_content.
    rewrite Hnt, process_paragraphs_flat. simpl.
    by apply flat_map_paragraph_lines_blank. }
  assert (extract_docx_simple.markdown_content doc = []) as Es.
  { unfold extract_docx_simple.markdown_content.
    rewrite Hnt, process_paragraphs_flat. simpl.
    by apply flat_map_paragraph_lines_blank. }
  rewrite (extract_docx_exact_success filename w doc Hin Hout).
  rewrite (extract_docx_simple_success filename w doc Hin Hout).
  rewrite Ea, Es. simpl. by rewrite !lookup_insert_eq.
Qed.

Lemma blank_document_empty_file_witness :
  files (extract_docx_simple.extract_docx_simple (lit "e.docx")
           (one_file (lit "e.docx")
              {| paragraphs := [ {| text := lit "  "; style := None |} ];
                 tables := [] |})).2
    !! output_filename (lit "e.docx")
  = Some (TextFile []).
Proof.
  refine (proj2 (proj2 (proj2
            (blank_document_empty_file (lit "e.docx") _
               {| paragraphs := [ {| text := lit "  "; style := None |} ];
                  tables := [] |} _ _ _ _)))).
  - by repeat constructor.
  - reflexivity.
  - apply lookup_singleton_eq.
  - simpl. rewrite lookup_singleton_ne; [discriminate|].
    vm_compute. discriminate.
Defined.

Lemma ends_with_empty_line_app lines more :
  lines = [] \/ ends_with_empty_line lines ->
  ends_with_empty_line more ->
  ends_with_empty_line (lines ++ more).
Proof.
  intros _ (m & Hm & ->). exists (lines ++ m). split.
  - destruct lines; [done|]. done.
  - by rewrite app_assoc.
Qed.

Lemma process_paragraphs_ends ps :
  forall md,
    md = [] \/ ends_with_empty_line md ->
    process_paragraphs md ps = [] \/
    ends_with_empty_line (process_paragraphs md ps).
Proof.
  unfold process_paragraphs.
  induction ps as [|p ps IH]; intros md Hmd; [done|].
  simpl. apply IH. rewrite paragraph_step_lines.
  unfold paragraph_lines. destruct (truthy (strip (text p))).
  - right. apply ends_with_empty_line_app; [done|].
    by exists [heading_line (style_name p) (strip (text p))].
  - by rewrite app_nil_r.
Qed.

Lemma table_block_ends table_idx t :
  ends_with_empty_line (analyze_docx.table_block table_idx t).
Proof.
  rewrite analyze_table_block.
  eexists. split; [|by rewrite app_assoc]. done.
Qed.

Lemma process_tables_ends block ts :
  (forall table_idx t, ends_with_empty_line (block table_idx t)) ->
  forall table_idx md,
    ends_with_empty_line md ->
    ends_with_empty_line (process_tables block table_idx ts md).
Proof.
  intros Hblock. induction ts as [|t ts IH]; intros table_idx md Hmd; [done|].
  simpl. apply IH. apply ends_with_empty_line_app; [by right|done].
Qed.

Lemma join_empty_last sep lines :
  lines <> [] -> join sep (lines ++ [[]]) = join sep lines ++ sep.
Proof.
  induction lines as [|l lines IH]; [done|]. intros _.
  destruct lines as [|l2 lines].
  - simpl. by rewrite app_nil_r.
  - change (join sep ((l :: l2 :: lines) ++ [[]]))
      with (l ++ sep ++ join sep ((l2 :: lines) ++ [[]])).
    rewrite IH by done.
    change (join sep (l :: l2 :: lines))
      with (l ++ sep ++ join sep (l2 :: lines)).
    by rewrite <- !app_assoc.
Qed.

Lemma text_ends_with_newline lines :
  lines = [] \/ ends_with_empty_line lines ->
  lines = [] \/
  exists body,
    body <> [] /\ lines = body ++ [[]]
    /\ join [ch_newline] lines = join [ch_newline] body ++ [ch_newline].
Proof.
  intros [->|(body & Hbody & ->)]; [by left|]. right.
  exists body. by rewrite join_empty_last.
Qed.

(** X16: the lines of a document are none, or they end with an empty line
    after at least one other line; so the text written is empty or ends
    with one newline that follows the text of the lines before. *)
Theorem written_text_ends_with_newline (doc : document) :
  (analyze_docx.markdown_content doc = [] \/
   exists body,
     body <> [] /\ analyze_docx.markdown_content doc = body ++ [[]]
     /\ join [ch_newline] (analyze_docx.markdown_content doc)
        = join [ch_newline] body ++ [ch_newline])
  /\ (extract_docx_simple.markdown_content doc = [] \/
      exists body,
        body <> []
        /\ extract_docx_simple.markdown_content doc = body ++ [[]]
        /\ join [ch_newline] (extract_docx_simple.markdown_content doc)
           = join [ch_newline] body ++ [ch_newline]).
Proof.
  pose proof (process_paragraphs_ends (paragraphs doc) [] (or_introl eq_refl))
    as Hp.
  split; apply text_ends_with_newline.
  - unfold analyze_docx.markdown_content.
    destruct (tables doc) as [|t ts]; [done|]. right. cbn [truthy].
    apply process_tables_ends; [apply table_block_ends|].
    apply ends_with_empty_line_app; [done|].
    by exists [lit "---"; []; lit "# TABLES SECTION"].
  - unfold extract_docx_simple.markdown_content.
    destruct (tables doc) as [|t ts]; [done|]. right. cbn [truthy].
    apply process_tables_ends.
    { intros i t'. rewrite table_block_same. apply table_block_ends. }
    apply ends_with_empty_line_app; [done|].
    by exists [lit "---"; []; lit "# DOCUMENT TABLES"].
Qed.

(** ** The preview of analyze_docx.py *)

Lemma format_3d_width n : 1 <= n <= 50 -> length (format_3d n) = 3.
Proof.
  intros [H1 H50].
  do 51 (destruct n as [|n]; [first [lia | reflexivity]|]). lia.
Qed.

Lemma preview_line_content i line :
  i < 50 -> drop 5 (format_3d (i + 1) ++ lit ": " ++ line) = line.
Proof.
  intros Hi. rewrite app_assoc. apply drop_app_length'.
  rewrite length_app, format_3d_width by lia. reflexivity.
Qed.

(** X17: the preview prints the first fifty lines, or all the lines when
    there are fewer, in order; the line at index i is printed after its
    number i+1 in decimal digits, right-aligned with spaces in three
    columns, a colon and a space, five characters in all; after the
    preview the notice "\n... (n more lines in the file)" is printed, n
    being the number of lines beyond fifty, when there are more than fifty
    lines, and nothing otherwise. *)
Theorem preview_shows_first_lines (markdown_content : list str) :
  length (preview_lines markdown_content)
  = Nat.min 50 (length markdown_content)
  /\ (forall i line,
        i < 50 ->
        markdown_content !! i = Some line ->
        preview_lines markdown_content !! i
        = Some (replicate (3 - length (str_of_nat (i + 1))) ch_space
                  ++ str_of_nat (i + 1) ++ lit ": " ++ line)
        /\ length (replicate (3 - length (str_of_nat (i + 1))) ch_space
                     ++ str_of_nat (i + 1) ++ lit ": ")
           = 5)
  /\ map (drop 5) (preview_lines markdown_content) = take 50 markdown_content
  /\ (length markdown_content <= 50 ->
      more_lines_notice markdown_content = None)
  /\ (50 < length markdown_content ->
      more_lines_notice markdown_content
      = Some ([ch_newline] ++ lit "... ("
                ++ str_of_nat (length markdown_content - 50)
                ++ lit " more lines in the file)")).
Proof.
  split; [|split; [|split; [|split]]].
  - unfold preview_lines. by rewrite length_imap, length_take.
  - intros i line Hi Hline. split.
    + unfold preview_lines. rewrite list_lookup_imap.
      rewrite lookup_take_lt by done.
      transitivity
        ((fun line => format_3d (i + 1) ++ lit ": " ++ line) <$> Some line).
      * f_equal. exact Hline.
      * simpl. unfold format_3d. by rewrite <- app_assoc.
    + pose proof (format_3d_width (i + 1)) as Hw. unfold format_3d in Hw.
      rewrite app_assoc, length_app, Hw by lia. reflexivity.
  - unfold preview_lines. change (map ?f ?l) with (f <$> l).
    apply list_eq. intros i.
    rewrite list_lookup_fmap, list_lookup_imap.
    destruct (_ !! i) as [line|] eqn:E; [|done].
    simpl. f_equal. apply preview_line_content.
    apply lookup_lt_Some in E. rewrite length_take in E. lia.
  - intros Hle. unfold more_lines_notice.
    destruct (Nat.ltb_spec 50 (length markdown_content)); [lia|done].
  - intros Hlt. unfold more_lines_notice.
    destruct (Nat.ltb_spec 50 (length markdown_content)); [done|lia].
Qed.

Lemma preview_shows_first_lines_witness :
  preview_lines (replicate 51 (lit "x")) !! 9 = Some (lit " 10: x")
  /\ more_lines_notice (replicate 51 (lit "x"))
     = Some ([ch_newline] ++ lit "... (1 more lines in the file)").
Proof.
  split.
  - refine (proj1 (proj1 (proj2
              (preview_shows_first_lines (replicate 51 (lit "x"))))
              9 (lit "x") _ _)).
    + lia.
    + reflexivity.
  - refine (proj2 (proj2 (proj2 (proj2
              (preview_shows_first_lines (replicate 51 (lit "x")))))) _).
    vm_compute. lia.
Defined.

(** ** Heading levels *)

(** X18: whatever the style, the line of a paragraph is its trimmed text
    after the prefix of a heading of level one to six, or after nothing:
    the text itself is never changed. *)
Theorem heading_line_keeps_text (style t : str) :
  exists k, k <= 6 /\ heading_line style t = heading_prefix k ++ t.
Proof.
  unfold heading_line.
  repeat match goal with
         | |- context [if ?b then _ else _] =>
             destruct b;
             [first [ by exists 1; split; [lia|]
                    | by exists 2; split; [lia|]
                    | by exists 3; split; [lia|]
                    | by exists 4; split; [lia|]
                    | by exists 5; split; [lia|]
                    | by exists 6; split; [lia|] ] |]
         end.
  exists 0. split; [lia|done].
Qed.

(** ** Padding *)

(** X19: the padding loop ends within the fuel it is given: it appends
    empty cells until the row has [max_cols] cells, and leaves a row that
    has that many or more as it is; no cell of the row is lost. *)
Theorem pad_row_length (n : nat) (row : list str) :
  pad_row n row = row ++ replicate (n - length row) []
  /\ length (pad_row n row) = Nat.max n (length row)
  /\ take (length row) (pad_row n row) = row.
Proof.
  rewrite pad_row_spec. split; [done|]. split.
  - rewrite length_app, length_replicate. lia.
  - by rewrite take_app_length.
Qed.

(** ** Substrings *)

Lemma startswith_self sub suf : startswith sub (sub ++ suf) = true.
Proof.
  induction sub as [|a sub IH]; [done|]. simpl. by rewrite N.eqb_refl.
Qed.

Lemma contains_occurrence sub pre suf :
  contains sub (pre ++ sub ++ suf) = true.
Proof.
  induction pre as [|c pre IH].
  - destruct (sub ++ suf) eqn:E; simpl; rewrite <- E, startswith_self; done.
  - cbn [app contains]. rewrite IH. apply orb_true_r.
Qed.

Lemma contains_found sub s :
  contains sub s = true -> exists pre suf, s = pre ++ sub ++ suf.
Proof.
  induction s as [|c s IH]; cbn [contains]; intros H.
  - rewrite orb_false_r in H. apply startswith_drop in H.
    exists [], (drop (length sub) []). exact H.
  - apply orb_prop in H as [H|H].
    + apply startswith_drop in H. by exists [], (drop (length sub) (c :: s)).
    + destruct (IH H) as (pre & suf & ->). by exists (c :: pre), suf.
Qed.

(** X20: the tests on the style are substring tests: a style name that has
    "Heading 1" anywhere in it, and "Title" nowhere, gives a heading of
    level one, whatever stands before and after, such as the "0" of
    "Heading 10"; and a test holds only for a name that has the word in
    it. *)
Theorem heading_1_anywhere (pre suf t : str) :
  contains (lit "Title") (pre ++ lit "Heading 1" ++ suf) = false ->
  heading_line (pre ++ lit "Heading 1" ++ suf) t = lit "# " ++ t
  /\ (forall sub s,
        contains sub s = true -> exists pre' suf', s = pre' ++ sub ++ suf').
Proof.
  intros HT. split; [|apply contains_found].
  unfold heading_line. by rewrite HT, contains_occurrence.
Qed.

Lemma heading_1_anywhere_witness :
  heading_line (lit "Heading 10") (lit "Annex") = lit "# Annex".
Proof.
  refine (proj1 (heading_1_anywhere [] (lit "0") (lit "Annex") _)).
  reflexivity.
Defined.

(** ** ".docx" inside the name *)

Lemma startswith_docx_before x suf :
  x <> [] ->
  startswith (lit ".docx") (x ++ lit ".docx" ++ suf) = true ->
  startswith (lit ".docx") x = true.
Proof.
  rewrite lit_docx. intros Hx H.
  destruct x as [|c0 [|c1 [|c2 [|c3 [|c4 x]]]]]; [done|..]; simpl in *;
    repeat match goal with
           | H : (_ && _) = true |- _ => apply andb_prop in H as [? H]
           end;
    try discriminate.
  repeat (apply andb_true_intro; split); done.
Qed.

Lemma output_filename_unfold filename :
  output_filename filename
  = replace_from (lit ".docx") (lit "_exact_extraction.md") 0 filename.
Proof. reflexivity. Qed.

(** X21: the replacement is not tied to the end of the name: for a name
    with one ".docx" in it, what stands after it stays after
    "_exact_extraction.md". *)
Theorem output_filename_inner_docx (stem suf : str) :
  contains (lit ".docx") stem = false ->
  contains (lit ".docx") suf = false ->
  output_filename (stem ++ lit ".docx" ++ suf)
  = stem ++ lit "_exact_extraction.md" ++ suf.
Proof.
  intros Hstem Hsuf. rewrite output_filename_unfold.
  induction stem as [|c stem IH].
  - cbn [app]. rewrite replace_from_match by (done || apply startswith_self).
    rewrite drop_app_length. f_equal.
    rewrite <- output_filename_unfold. by apply replace_absent.
  - cbn [contains] in Hstem. apply orb_false_elim in Hstem as [Hhere Hrest].
    cbn [app]. rewrite replace_from_no_match.
    + f_equal. by apply IH.
    + destruct (startswith (lit ".docx")
                  (c :: stem ++ lit ".docx" ++ suf)) eqn:E; [|done].
      apply (startswith_docx_before (c :: stem)) in E; [congruence|done].
Qed.

Lemma output_filename_inner_docx_witness :
  output_filename (lit "a" ++ lit ".docx" ++ lit ".bak")
  = lit "a" ++ lit "_exact_extraction.md" ++ lit ".bak".
Proof.
  refine (output_filename_inner_docx (lit "a") (lit ".bak") _ _);
    reflexivity.
Defined.
